(** * Read state and unread messages of the Google Chat MCP server

    A shallow embedding of

    - [src/providers/google_chat/api/read_state.py]
      ([_normalize_space_name], [_get_user_id_from_credentials],
      [get_space_read_state]) and
    - [src/providers/google_chat/tools/read_state_tools.py]
      ([_parse_timestamp], [get_unread_messages_tool],
      [get_unread_conversations_tool]),

    followed by the properties of the unread classification and of the
    conversation scan.

    Conventions.  The names, types and timestamps that the program
    compares with ASCII literals are [string]s; the text of a message,
    which people write in any script and which the program measures and
    cuts, is the list of its code points ([unicode]), since that is what
    [len] and a slice of a Python [str] count.  A Python [int] is a [Z],
    [None] is the [None] of [option].  The JSON
    objects of the Chat REST API are records whose fields are optional, so
    that [d.get('k')] is the projection [k d] and [d.get('k', v)] is
    [default v (k d)].  A Python exception is a value of [exn]; code that
    can raise returns a [result].  The remote calls read a world that the
    program does not control: they are functions from a world to a result
    and a new world.  Calls to [logger] are left out: nothing depends on
    the log. *)

From Stdlib Require Import ZArith List String Ascii Bool Lia.
From Stdlib Require Import Permutation Sorted.
From Stdlib Require Import DecimalString.
Import ListNotations.

Local Open Scope string_scope.
Local Open Scope Z_scope.

(** ** The Python runtime *)

Module Py.

(** The exceptions the program meets.  Both are subclasses of
    [Exception], so [except Exception] catches every [exn]. *)
Inductive exn : Type :=
| Exception (msg : string)
| TypeError (msg : string).

(** [str(e)] *)
Definition str (e : exn) : string :=
  match e with
  | Exception msg => msg
  | TypeError msg => msg
  end.

Inductive result (A : Type) : Type :=
| Ok (a : A)
| Raise (e : exn).
Arguments Ok {A} a.
Arguments Raise {A} e.

Definition rbind {A B : Type} (r : result A) (k : A -> result B) : result B :=
  match r with
  | Ok a => k a
  | Raise e => Raise e
  end.

(** [d.get(k, v)] on an optional field. *)
Definition default {A : Type} (v : A) (o : option A) : A :=
  match o with
  | Some a => a
  | None => v
  end.

(** Truth value of a [str]: the empty string is false. *)
Definition truthy_str (s : string) : bool := negb (String.eqb s "").

(** Truth value of [d.get(k)] for a string field: [None] and [''] are
    false. *)
Definition truthy (o : option string) : bool :=
  match o with
  | Some s => truthy_str s
  | None => false
  end.

(** [len(l)] *)
Definition len {A : Type} (l : list A) : Z := Z.of_nat (List.length l).

(** A [str] of any characters, as Python sees it: the sequence of its
    code points.  [len] and the slices count code points, whatever the
    number of 8-bit units each takes in an encoding. *)
Definition unicode : Type := list N.

(** A literal of the source whose characters are all ASCII, one code
    point for each. *)
Definition unicode_of (s : string) : unicode :=
  map N_of_ascii (list_ascii_of_string s).

(** Truth value of such a [str]: the empty one is false. *)
Definition truthy_unicode (s : unicode) : bool :=
  match s with
  | [] => false
  | _ :: _ => true
  end.

(** [len(s)], in code points. *)
Definition ulen (s : unicode) : Z := Z.of_nat (List.length s).

(** [s[:n]] for a literal [n >= 0]: the first [n] code points, or all of
    them when there are fewer. *)
Definition uslice_to (n : nat) (s : unicode) : unicode := firstn n s.

(** [s.startswith(p)] *)
Definition startswith (s p : string) : bool := String.prefix p s.

(** [s.replace(c, by)] for a pattern [c] of one character: every
    occurrence is replaced, left to right. *)
Fixpoint replace (c : ascii) (by_ : string) (s : string) : string :=
  match s with
  | EmptyString => EmptyString
  | String a s' =>
      if Ascii.eqb a c then by_ ++ replace c by_ s'
      else String a (replace c by_ s')
  end.

(** [l[:k]]: the first [k] items when [k >= 0]; for a negative [k] the
    stop index is [len(l) + k], clipped at 0, so that the last [-k] items
    are dropped. *)
Definition slice_to {A : Type} (k : Z) (l : list A) : list A :=
  if 0 <=? k then firstn (Z.to_nat k) l
  else firstn (Z.to_nat (len l + k)) l.

(** [l.sort(key=key, reverse=True)].  Python's sort is stable, also with
    [reverse=True]: items come out by decreasing key and items of equal
    key keep the order they had.  That fixes the output, whatever the
    algorithm; here an item is inserted, from the right, behind the items
    of strictly greater key. *)
Fixpoint insert_desc {A : Type} (key : A -> Z) (x : A) (l : list A) : list A :=
  match l with
  | [] => [x]
  | y :: l' =>
      if key x <? key y then y :: insert_desc key x l'
      else x :: y :: l'
  end.

Fixpoint sort_desc {A : Type} (key : A -> Z) (l : list A) : list A :=
  match l with
  | [] => []
  | x :: l' => insert_desc key x (sort_desc key l')
  end.

(** [s.split(c)] for a separator [c] of one character: the pieces between
    the separators, at least one. *)
Fixpoint str_split (c : ascii) (s : string) : list string :=
  match s with
  | EmptyString => [EmptyString]
  | String a s' =>
      if Ascii.eqb a c then EmptyString :: str_split c s'
      else
        match str_split c s' with
        | piece :: pieces => String a piece :: pieces
        | [] => [String a EmptyString]
        end
  end.

(** [s[:-n]] for a literal [n > 0]: the stop index is [len(s) - n], clipped
    at 0. *)
Definition str_drop_last (n : nat) (s : string) : string :=
  substring 0 (String.length s - n) s.

(** [str(n)], also what [f"{n}"] prints for an [int]. *)
Definition str_of_int (n : Z) : string := NilZero.string_of_int (Z.to_int n).

End Py.
Import Py.

(** ** [datetime] *)

Module DateTime.

(** A [datetime.datetime]: the wall-clock fields and, for an aware value,
    the offset from UTC of its [tzinfo] in microseconds; [tzinfo = None]
    is a naive value. *)
Record t : Type := make {
  year : Z; month : Z; day : Z;
  hour : Z; minute : Z; second : Z; microsecond : Z;
  tzinfo : option Z
}.

Definition is_leap (y : Z) : bool :=
  (y mod 4 =? 0) && (negb (y mod 100 =? 0) || (y mod 400 =? 0)).

Definition days_before_year (y : Z) : Z :=
  let y1 := y - 1 in y1 * 365 + y1 / 4 - y1 / 100 + y1 / 400.

Definition days_in_month (y m : Z) : Z :=
  if m =? 2 then (if is_leap y then 29 else 28)
  else if (m =? 4) || (m =? 6) || (m =? 9) || (m =? 11) then 30
  else 31.

Definition days_before_month (y m : Z) : Z :=
  nth (Z.to_nat (m - 1)) [0; 31; 59; 90; 120; 151; 181; 212; 243; 273; 304; 334] 0
  + (if (2 <? m) && is_leap y then 1 else 0).

(** [toordinal()]: the day number, 0001-01-01 being day 1. *)
Definition toordinal (d : t) : Z :=
  days_before_year (year d) + days_before_month (year d) (month d) + day d.

(** The wall-clock fields as microseconds since 0001-01-01T00:00:00. *)
Definition wall (d : t) : Z :=
  ((((toordinal d - 1) * 24 + hour d) * 60 + minute d) * 60 + second d) * 1000000
  + microsecond d.

Definition aware (d : t) : bool :=
  match tzinfo d with Some _ => true | None => false end.

(** [a > b].  Two naive values compare by their fields, two aware values
    by their UTC instants; a naive value against an aware one raises
    [TypeError]. *)
Definition gt (a b : t) : result bool :=
  match tzinfo a, tzinfo b with
  | None, None => Ok (wall b <? wall a)
  | Some oa, Some ob => Ok (wall b - ob <? wall a - oa)
  | _, _ => Raise (TypeError "can't compare offset-naive and offset-aware datetimes")
  end.

(** The place of a value on its time line, in microseconds: the UTC
    instant of an aware value, the wall clock of a naive one. *)
Definition timeline (d : t) : Z := wall d - default 0 (tzinfo d).

(** [a] is strictly later than [b]; meant for two values of the same
    kind. *)
Definition later (a b : t) : bool := timeline b <? timeline a.

(** 1970-01-01T00:00:00 UTC *)
Definition epoch : t := make 1970 1 1 0 0 0 0 (Some 0).

(** [datetime.now(timezone.utc)] from the fields of the clock: an aware
    value of offset 0. *)
Definition utc (d : t) : t :=
  make (year d) (month d) (day d) (hour d) (minute d) (second d) (microsecond d)
    (Some 0).

(** A [datetime.timedelta], normalized as Python keeps it: [days] of any
    sign, [0 <= seconds < 86400], [0 <= microseconds < 1000000]. *)
Record timedelta : Type := delta {
  days : Z;
  seconds : Z;
  microseconds : Z
}.

Definition timedelta_of (us : Z) : timedelta :=
  delta (us / 86400000000) (us mod 86400000000 / 1000000) (us mod 1000000).

(** [a - b]: the time between two naive values or between two aware
    values; a naive value and an aware one raise [TypeError]. *)
Definition sub (a b : t) : result timedelta :=
  match tzinfo a, tzinfo b with
  | None, None => Ok (timedelta_of (wall a - wall b))
  | Some oa, Some ob => Ok (timedelta_of ((wall a - oa) - (wall b - ob)))
  | _, _ =>
      Raise (TypeError "can't subtract offset-naive and offset-aware datetimes")
  end.

Definition digit_char (d : Z) : ascii := ascii_of_nat (Z.to_nat (48 + d)).

(** [n] decimal digits, zero padded. *)
Fixpoint pad (n : nat) (v : Z) : string :=
  match n with
  | O => EmptyString
  | S n' => String (digit_char (v / 10 ^ Z.of_nat n' mod 10)) (pad n' v)
  end.

(** [d.strftime('%Y-%m-%dT%H:%M:%S.%f')], for a year of four digits (how
    Python pads an earlier year depends on the platform). *)
Definition strftime (d : t) : string :=
  pad 4 (year d) ++ "-" ++ pad 2 (month d) ++ "-" ++ pad 2 (day d) ++ "T"
  ++ pad 2 (hour d) ++ ":" ++ pad 2 (minute d) ++ ":" ++ pad 2 (second d) ++ "."
  ++ pad 6 (microsecond d).

(** The fields are those of a date and a time of day. *)
Definition valid (d : t) : bool :=
  (1 <=? year d) && (year d <=? 9999) && (1 <=? month d) && (month d <=? 12)
  && (1 <=? day d) && (day d <=? days_in_month (year d) (month d))
  && (0 <=? hour d) && (hour d <=? 23) && (0 <=? minute d) && (minute d <=? 59)
  && (0 <=? second d) && (second d <=? 59)
  && (0 <=? microsecond d) && (microsecond d <=? 999999).

(** The text [YYYY-MM-DDTHH:MM:SS.mmm] of a time with milliseconds [ms],
    followed by [tail]. *)
Definition isoformat_ms (d : t) (ms : Z) (tail : string) : string :=
  pad 4 (year d) ++ String "-" (pad 2 (month d) ++ String "-" (pad 2 (day d)
  ++ String "T" (pad 2 (hour d) ++ String ":" (pad 2 (minute d)
  ++ String ":" (pad 2 (second d) ++ String "." (pad 3 ms ++ tail)))))).

(** *** A reference parser

    [datetime.fromisoformat] belongs to the Python library and what it
    accepts grew with the Python version.  The program is therefore
    embedded over an arbitrary parser (see the section below).  For the
    examples, [isoparse] reads the shape that the Chat API emits, after
    ['Z'] was replaced:

      [YYYY-MM-DD(T| )HH:MM:SS[.fff|.ffffff][(+|-)HH:MM]]

    with the fields in range; every Python from 3.7 on parses such a
    string to the value computed here.  [isoparse] rejects any other
    string ([None] stands for [ValueError]); Python reads a few more
    shapes, none of which the examples use. *)

Definition obind {A B : Type} (o : option A) (k : A -> option B) : option B :=
  match o with
  | Some a => k a
  | None => None
  end.

Definition digit (c : ascii) : option Z :=
  let n := Z.of_nat (nat_of_ascii c) in
  if (48 <=? n) && (n <=? 57) then Some (n - 48) else None.

(** Exactly [n] decimal digits. *)
Fixpoint number (n : nat) (acc : Z) (s : string) : option (Z * string) :=
  match n with
  | O => Some (acc, s)
  | S n' =>
      match s with
      | String c s' => obind (digit c) (fun d => number n' (10 * acc + d) s')
      | EmptyString => None
      end
  end.

Definition expect (c : ascii) (s : string) : option string :=
  match s with
  | String a s' => if Ascii.eqb a c then Some s' else None
  | EmptyString => None
  end.

(** [.fff] or [.ffffff], or nothing. *)
Definition fraction (s : string) : option (Z * string) :=
  match s with
  | String "." s' =>
      match number 6 0 s' with
      | Some r => Some r
      | None => obind (number 3 0 s') (fun '(ms, r) => Some (ms * 1000, r))
      end
  | _ => Some (0, s)
  end.

(** [+HH:MM] or [-HH:MM] up to the end of the string, or nothing. *)
Definition offset (s : string) : option (option Z) :=
  match s with
  | EmptyString => Some None
  | String c s' =>
      if Ascii.eqb c "+" || Ascii.eqb c "-" then
        obind (number 2 0 s') (fun '(hh, s1) =>
        obind (expect ":" s1) (fun s2 =>
        obind (number 2 0 s2) (fun '(mm, s3) =>
        if negb (String.eqb s3 "") || (23 <? hh) || (59 <? mm) then None
        else
          let us := (hh * 3600 + mm * 60) * 1000000 in
          Some (Some (if Ascii.eqb c "-" then - us else us)))))
      else None
  end.

Definition isoparse (s : string) : option t :=
  obind (number 4 0 s) (fun '(y, s) =>
  obind (expect "-" s) (fun s =>
  obind (number 2 0 s) (fun '(mo, s) =>
  obind (expect "-" s) (fun s =>
  obind (number 2 0 s) (fun '(d, s) =>
  obind (match s with
         | String sep s' =>
             if Ascii.eqb sep "T" || Ascii.eqb sep " " then Some s' else None
         | EmptyString => None
         end) (fun s =>
  obind (number 2 0 s) (fun '(h, s) =>
  obind (expect ":" s) (fun s =>
  obind (number 2 0 s) (fun '(mi, s) =>
  obind (expect ":" s) (fun s =>
  obind (number 2 0 s) (fun '(se, s) =>
  obind (fraction s) (fun '(us, s) =>
  obind (offset s) (fun tz =>
  if (1 <=? y) && (1 <=? mo) && (mo <=? 12) && (1 <=? d)
     && (d <=? days_in_month y mo) && (h <=? 23) && (mi <=? 59) && (se <=? 59)
  then Some (make y mo d h mi se us tz)
  else None))))))))))))).

End DateTime.

(** ** The JSON objects of the Chat API *)

Module ReadState.
(** [users/{user}/spaces/{space}/spaceReadState] *)
Record t : Type := make {
  name : option string;
  lastReadTime : option string
}.
End ReadState.

Module Space.
Record t : Type := make {
  name : option string;
  spaceType : option string;
  displayName : option string
}.
End Space.

Module Message.
Record t : Type := make {
  name : option string;
  text : option unicode;
  createTime : option string;
  space : option Space.t
}.
End Message.

Module MessagesResult.
(** What [list_space_messages] returns. *)
Record t : Type := make {
  messages : option (list Message.t)
}.
End MessagesResult.

(** ** The dictionaries the tools return *)

Module UnreadMessages.
Record t : Type := make {
  space_name : string;
  space_display_name : option string;
  last_read_time : string;
  unread_count : Z;
  messages : list Message.t;
  has_more : bool
}.
End UnreadMessages.

Module Summary.
Record t : Type := make {
  space_name : string;
  display_name : string;
  space_type : string;
  last_read_time : string;
  unread_count : Z;
  latest_message_time : option string;
  preview : option unicode
}.
End Summary.

Module UnreadConversations.
Record t : Type := make {
  total_spaces_scanned : Z;
  conversations_with_unread : Z;
  conversations : list Summary.t
}.
End UnreadConversations.

Module MarkedRead.
Record t : Type := make {
  space_name : string;
  last_read_time : option string;
  success : bool
}.
End MarkedRead.

Module ReadStateInfo.
Record t : Type := make {
  name : option string;
  space_name : string;
  last_read_time : string;
  formatted_last_read : string
}.
End ReadStateInfo.

(** ** Calls that read the world and can raise *)

Definition M (world A : Type) : Type := world -> result A * world.

Definition ret {world A : Type} (a : A) : M world A := fun w => (Ok a, w).

Definition raise {world A : Type} (e : exn) : M world A := fun w => (Raise e, w).

Definition lift {world A : Type} (r : result A) : M world A := fun w => (r, w).

Definition bind {world A B : Type} (m : M world A) (k : A -> M world B) : M world B :=
  fun w =>
    match m w with
    | (Ok a, w') => k a w'
    | (Raise e, w') => (Raise e, w')
    end.

(** [try: m  except Exception as e: h e] *)
Definition try_except {world A : Type} (m : M world A) (h : exn -> M world A)
  : M world A :=
  fun w =>
    match m w with
    | (Ok a, w') => (Ok a, w')
    | (Raise e, w') => h e w'
    end.

Notation "x <- m ;; k" := (bind m (fun x => k))
  (at level 61, m at next level, right associativity).

(** [for x in l: s = body s x], where the body can raise. *)
Fixpoint for_each {A S : Type} (body : S -> A -> result S) (l : list A) (s : S)
  : result S :=
  match l with
  | [] => Ok s
  | x :: l' =>
      match body s x with
      | Ok s' => for_each body l' s'
      | Raise e => Raise e
      end
  end.

(** The same loop for a body that calls the world. *)
Fixpoint for_eachM {world A S : Type} (body : S -> A -> M world S) (l : list A)
  (s : S) : M world S :=
  match l with
  | [] => ret s
  | x :: l' => s' <- body s x ;; for_eachM body l' s'
  end.

(** ** [api/read_state.py] *)

Definition _normalize_space_name (space_name : string) : string :=
  if negb (startswith space_name "spaces/") then "spaces/" ++ space_name
  else space_name.

(** The local variables of the inner loop of
    [get_unread_conversations_tool]. *)
Module Counters.
Record t : Type := make {
  unread_count : Z;
  latest_message_time : option string;
  latest_message_preview : option unicode
}.
End Counters.

(** The local variables of the loop over the spaces. *)
Module Scan.
Record t : Type := make {
  conversations_with_unread : list Summary.t;
  total_scanned : Z
}.
End Scan.

(** ** A small world for the examples

    A read-only store: the read states by resource name, the messages by
    space name (newest first, as ["createTime desc"] asks), the spaces.  A
    resource that is not in the store makes the request fail. *)

Module Demo.

Record world : Type := make {
  credentials : bool;
  read_states : list (string * ReadState.t);
  message_lists : list (string * list Message.t);
  spaces : list Space.t
}.

Fixpoint lookup {A : Type} (k : string) (l : list (string * A)) : option A :=
  match l with
  | [] => None
  | (k', a) :: l' => if String.eqb k k' then Some a else lookup k l'
  end.

Definition get_credentials : M world bool := fun w => (Ok (credentials w), w).

Definition build (name version : string) : M world unit := fun w => (Ok tt, w).

Definition getSpaceReadState (service : unit) (resource_name : string)
  : M world ReadState.t :=
  fun w =>
    match lookup resource_name (read_states w) with
    | Some rs => (Ok rs, w)
    | None => (Raise (Exception "HttpError 404"), w)
    end.

Definition list_chat_spaces : M world (list Space.t) := fun w => (Ok (spaces w), w).

Definition list_space_messages (space_name : string) (include_sender_info : bool)
  (page_size : Z) (order_by : string) : M world MessagesResult.t :=
  fun w =>
    match lookup space_name (message_lists w) with
    | Some l => (Ok (MessagesResult.make (Some (firstn (Z.to_nat page_size) l))), w)
    | None => (Raise (Exception "Failed to list messages: HttpError 403"), w)
    end.

(** A message whose text is all ASCII. *)
Definition msg (name text createTime : string) : Message.t :=
  Message.make (Some name) (Some (unicode_of text)) (Some createTime) None.

Definition read_state (space : string) (lastReadTime : option string)
  : string * ReadState.t :=
  let name := "users/me/" ++ space ++ "/spaceReadState" in
  (name, ReadState.make (Some name) lastReadTime).

Definition long_text : string :=
  "The deployment of the new release is planned for Thursday at nine; "
  ++ "please review the checklist and reply here if anything is missing.".

(** The example of the specification: read up to 09:55, messages of
    10:05, 10:00 and 09:50. *)
Definition team_messages : list Message.t :=
  [ msg "spaces/A/messages/3" "see you there" "2024-01-01T10:05:00.000Z";
    msg "spaces/A/messages/2" "stand-up in five" "2024-01-01T10:00:00.000Z";
    msg "spaces/A/messages/1" "good morning" "2024-01-01T09:50:00.000Z" ].

Definition bob_messages : list Message.t :=
  [ msg "spaces/B/messages/3" "ping" "2024-01-02T08:00:00.000Z";
    msg "spaces/B/messages/2" "are you in today?" "2024-01-02T07:59:00.000Z";
    msg "spaces/B/messages/1" "hi" "2024-01-02T07:58:00.000Z" ].

Definition ops_messages : list Message.t :=
  [ msg "spaces/E/messages/2" long_text "2024-01-03T12:00:00.123456Z";
    msg "spaces/E/messages/1" "heads up" "2024-01-03T11:00:00Z" ].

(** A message whose [createTime] cannot be read, between two that can. *)
Definition odd_message : Message.t :=
  msg "spaces/H/messages/2" "from a bot" "yesterday at noon".

Definition bot_messages : list Message.t :=
  [ msg "spaces/H/messages/3" "done" "2024-01-04T10:00:00Z";
    odd_message;
    msg "spaces/H/messages/1" "started" "2024-01-04T09:00:00Z" ].

(** A first unread message with an empty text, before one with a text. *)
Definition cards_messages : list Message.t :=
  [ msg "spaces/I/messages/2" "" "2024-01-05T10:00:00Z";
    msg "spaces/I/messages/1" "see the card above" "2024-01-05T09:00:00Z" ].

(** A [createTime] without a UTC offset. *)
Definition local_messages : list Message.t :=
  [ msg "spaces/G/messages/1" "no zone" "2024-01-01T10:00:00" ].

(** A message from before 1970. *)
Definition old_messages : list Message.t :=
  [ msg "spaces/J/messages/1" "from the archive" "1969-12-31T23:59:59.000Z" ].

(** 2024-01-01T09:55:00 UTC and 2024-01-04T08:00:00 UTC *)
Definition read_0955 : DateTime.t := DateTime.make 2024 1 1 9 55 0 0 (Some 0).
Definition read_0800 : DateTime.t := DateTime.make 2024 1 4 8 0 0 0 (Some 0).

Definition w0 : world :=
  {| credentials := true;
     read_states :=
       [ read_state "spaces/A" (Some "2024-01-01T09:55:00.000Z");
         read_state "spaces/B" None;
         read_state "spaces/D" (Some "2024-01-01T00:00:00Z");
         read_state "spaces/E" (Some "2024-01-03T08:00:00Z");
         read_state "spaces/F" (Some "last tuesday");
         read_state "spaces/G" (Some "2024-01-01T09:55:00.000Z");
         read_state "spaces/H" (Some "2024-01-04T08:00:00Z");
         read_state "spaces/I" (Some "2024-01-05T08:00:00Z");
         read_state "spaces/J" (Some "") ];
     message_lists :=
       [ ("spaces/A", team_messages);
         ("spaces/B", bob_messages);
         ("spaces/C", team_messages);
         ("spaces/E", ops_messages);
         ("spaces/F", team_messages);
         ("spaces/G", local_messages);
         ("spaces/H", bot_messages);
         ("spaces/I", cards_messages);
         ("spaces/J", old_messages) ];
     spaces :=
       [ Space.make (Some "spaces/A") (Some "SPACE") (Some "Team");
         Space.make (Some "spaces/B") (Some "DIRECT_MESSAGE") (Some "Bob");
         Space.make (Some "spaces/C") (Some "SPACE") (Some "Broken");
         Space.make (Some "spaces/D") (Some "GROUP_CHAT") (Some "Lunch");
         Space.make (Some "spaces/E") (Some "SPACE") (Some "Ops");
         Space.make (Some "spaces/F") None None;
         Space.make (Some "spaces/G") (Some "SPACE") (Some "Local");
         Space.make (Some "spaces/H") (Some "SPACE") (Some "Bots");
         Space.make (Some "spaces/I") (Some "DIRECT_MESSAGE") (Some "Cards") ] |}.

(** The thread read states by resource name, an update that echoes what
    it was sent, the direct-message spaces by user, and a clock that shows
    2024-01-05T12:34:56.789123 UTC. *)
Definition getThreadReadState (service : unit) (resource_name : string)
  : M world ReadState.t :=
  fun w =>
    if String.eqb resource_name "users/me/spaces/A/threads/T1/threadReadState"
    then (Ok (ReadState.make (Some resource_name) (Some "2024-01-01T09:00:00Z")), w)
    else (Raise (Exception "HttpError 404"), w).

Definition updateSpaceReadState (service : unit) (resource_name updateMask : string)
  (body : ReadState.t) : M world ReadState.t :=
  fun w => (Ok (ReadState.make (Some resource_name) (ReadState.lastReadTime body)), w).

Definition findDirectMessage (service : unit) (user : string) : M world Space.t :=
  fun w =>
    if String.eqb user "users/bob@example.com"
    then (Ok (Space.make (Some "spaces/B") None (Some "Bob")), w)
    else (Raise (Exception "HttpError 404"), w).

Definition noon : DateTime.t := DateTime.make 2024 1 5 12 34 56 789123 None.

Definition clock : world -> DateTime.t * world := fun w => (noon, w).

(** Texts outside ASCII: sixty times U+00E9 (120 units in UTF-8, 60
    characters) and 101 times U+4E2D (303 units, 101 characters). *)
Definition accents : unicode := repeat 233%N 60.
Definition ideograms : unicode := repeat 20013%N 101.

(** A store of two spaces, each with one message, of these texts. *)
Definition accent_store : world :=
  {| credentials := true;
     read_states :=
       [ read_state "spaces/K" (Some "2024-01-06T08:00:00Z");
         read_state "spaces/L" (Some "2024-01-06T08:00:00Z") ];
     message_lists :=
       [ ("spaces/K",
          [ Message.make (Some "spaces/K/messages/1") (Some accents)
              (Some "2024-01-06T10:00:00Z") None ]);
         ("spaces/L",
          [ Message.make (Some "spaces/L/messages/1") (Some ideograms)
              (Some "2024-01-06T11:00:00Z") None ]) ];
     spaces :=
       [ Space.make (Some "spaces/K") (Some "DIRECT_MESSAGE") (Some "Zoe");
         Space.make (Some "spaces/L") (Some "SPACE") (Some "Shanghai") ] |}.

(** A store whose one read state has a time without a UTC offset. *)
Definition local_store : world :=
  {| credentials := true;
     read_states := [ read_state "spaces/N" (Some "2024-01-05T08:00:00") ];
     message_lists := [];
     spaces := [] |}.

(** The same store without credentials. *)
Definition signed_out : world :=
  {| credentials := false;
     read_states := read_states w0;
     message_lists := message_lists w0;
     spaces := spaces w0 |}.

End Demo.

Section Program.

(** [datetime.fromisoformat]; [None] stands for its [ValueError]. *)
Variable fromisoformat : string -> option DateTime.t.

(** The world of the remote service and of the credential store. *)
Variable world : Type.

(** [api.auth.get_credentials()]: whether the credentials it returns are
    true ([None] is not). *)
Variable get_credentials : M world bool.

(** [googleapiclient.discovery.build(name, version, credentials=creds)]
    and the request
    [service.users().spaces().getSpaceReadState(name=...).execute()]. *)
Variable service : Type.
Variable build : string -> string -> M world service.
Variable getSpaceReadState : service -> string -> M world ReadState.t.

(** [api.spaces.list_chat_spaces()] and
    [api.messages.list_space_messages(space_name, include_sender_info,
    page_size, order_by)]. *)
Variable list_chat_spaces : M world (list Space.t).
Variable list_space_messages :
  string -> bool -> Z -> string -> M world MessagesResult.t.

Definition _get_user_id_from_credentials : M world string :=
  creds <- get_credentials ;;
  if negb creds then
    raise (Exception "No valid credentials found. Please authenticate first.")
  else ret "users/me".

Definition get_space_read_state (space_name : string) : M world ReadState.t :=
  try_except
    (creds <- get_credentials ;;
     if negb creds then
       raise (Exception "No valid credentials found. Please authenticate first.")
     else
       service <- build "chat" "v1" ;;
       let space_name := _normalize_space_name space_name in
       user_id <- _get_user_id_from_credentials ;;
       let resource_name := user_id ++ "/" ++ space_name ++ "/spaceReadState" in
       result <- getSpaceReadState service resource_name ;;
       ret result)
    (fun e => raise (Exception ("Failed to get space read state: " ++ str e))).

(** ** [tools/read_state_tools.py] *)

(** [ValueError] is what [fromisoformat] raises on a string it cannot
    read; it is caught here and becomes [None]. *)
Definition _parse_timestamp (timestamp_str : string) : option DateTime.t :=
  if negb (truthy_str timestamp_str) then None
  else
    let timestamp_str := replace "Z" "+00:00" timestamp_str in
    fromisoformat timestamp_str.

(** Lines 149-151 and 297-299: the epoch stands in for a missing or empty
    [lastReadTime]. *)
Definition last_read_time_or_epoch (last_read_time : option string) : string :=
  match last_read_time with
  | Some s => if negb (truthy_str s) then "1970-01-01T00:00:00.000Z" else s
  | None => "1970-01-01T00:00:00.000Z"
  end.

(** Lines 167-173, the body of [for message in all_messages]. *)
Definition unread_body (last_read_dt : option DateTime.t)
  (unread_messages : list Message.t) (message : Message.t)
  : result (list Message.t) :=
  match Message.createTime message with
  | Some create_time =>
      if truthy_str create_time then
        match _parse_timestamp create_time, last_read_dt with
        | Some create_dt, Some last_read_dt =>
            rbind (DateTime.gt create_dt last_read_dt) (fun b =>
            if b then Ok (unread_messages ++ [message])%list
            else Ok unread_messages)
        | _, _ => Ok unread_messages
        end
      else Ok unread_messages
  | None => Ok unread_messages
  end.

Definition get_unread_messages_tool (space_name : string)
  (include_sender_info : bool) (max_results : Z) : M world UnreadMessages.t :=
  let space_name :=
    if negb (startswith space_name "spaces/") then "spaces/" ++ space_name
    else space_name in
  read_state <- get_space_read_state space_name ;;
  let last_read_time := ReadState.lastReadTime read_state in
  let last_read_time := last_read_time_or_epoch last_read_time in
  let last_read_dt := _parse_timestamp last_read_time in
  messages_result <-
    list_space_messages space_name include_sender_info max_results
      "createTime desc" ;;
  let all_messages := default [] (MessagesResult.messages messages_result) in
  unread_messages <- lift (for_each (unread_body last_read_dt) all_messages []) ;;
  let has_more :=
    (max_results <=? len all_messages) && (len unread_messages =? max_results) in
  let space_display_name :=
    match all_messages with
    | m0 :: _ =>
        match Message.space m0 with
        | Some space_info => Space.displayName space_info
        | None => None
        end
    | [] => None
    end in
  ret {| UnreadMessages.space_name := space_name;
         UnreadMessages.space_display_name := space_display_name;
         UnreadMessages.last_read_time := last_read_time;
         UnreadMessages.unread_count := len unread_messages;
         UnreadMessages.messages := unread_messages;
         UnreadMessages.has_more := has_more |}.

(** Line 329: [text[:100] + ('...' if len(text) > 100 else '')]. *)
Definition preview_of (text : unicode) : unicode :=
  (uslice_to 100 text
   ++ (if 100 <? ulen text then unicode_of "..." else unicode_of ""))%list.

(** Lines 319-329, the body of [for message in messages]. *)
Definition count_body (last_read_dt : option DateTime.t) (c : Counters.t)
  (message : Message.t) : result Counters.t :=
  match Message.createTime message with
  | Some create_time =>
      if truthy_str create_time then
        match _parse_timestamp create_time, last_read_dt with
        | Some create_dt, Some last_read_dt =>
            rbind (DateTime.gt create_dt last_read_dt) (fun b =>
            if b then
              let unread_count := Counters.unread_count c + 1 in
              match Counters.latest_message_time c with
              | None =>
                  let latest_message_time := Some create_time in
                  let text := default (unicode_of "") (Message.text message) in
                  if truthy_unicode text then
                    Ok (Counters.make unread_count latest_message_time
                          (Some (preview_of text)))
                  else
                    Ok (Counters.make unread_count latest_message_time
                          (Counters.latest_message_preview c))
              | Some _ =>
                  Ok (Counters.make unread_count (Counters.latest_message_time c)
                        (Counters.latest_message_preview c))
              end
            else Ok c)
        | _, _ => Ok c
        end
      else Ok c
  | None => Ok c
  end.

(** Lines 293-341, what stands inside [try]: the summary to append, if
    any. *)
Definition check_space (space_name display_name space_type : string)
  : M world (option Summary.t) :=
  read_state <- get_space_read_state space_name ;;
  let last_read_time := ReadState.lastReadTime read_state in
  let last_read_time := last_read_time_or_epoch last_read_time in
  let last_read_dt := _parse_timestamp last_read_time in
  messages_result <- list_space_messages space_name false 20 "createTime desc" ;;
  let messages := default [] (MessagesResult.messages messages_result) in
  c <- lift (for_each (count_body last_read_dt) messages
               (Counters.make 0 None None)) ;;
  if 0 <? Counters.unread_count c then
    ret (Some {| Summary.space_name := space_name;
                 Summary.display_name := display_name;
                 Summary.space_type := space_type;
                 Summary.last_read_time := last_read_time;
                 Summary.unread_count := Counters.unread_count c;
                 Summary.latest_message_time := Counters.latest_message_time c;
                 Summary.preview := Counters.latest_message_preview c |})
  else ret None.

(** Lines 280-345, the body of [for space in all_spaces]. *)
Definition scan_body (include_dms include_spaces : bool) (st : Scan.t)
  (space : Space.t) : M world Scan.t :=
  let space_name := default "" (Space.name space) in
  let space_type := default "SPACE" (Space.spaceType space) in
  let display_name := default "Unnamed Space" (Space.displayName space) in
  if String.eqb space_type "DIRECT_MESSAGE" && negb include_dms then ret st
  else if negb (String.eqb space_type "DIRECT_MESSAGE") && negb include_spaces
  then ret st
  else
    let total_scanned := Scan.total_scanned st + 1 in
    try_except
      (found <- check_space space_name display_name space_type ;;
       match found with
       | Some summary =>
           ret (Scan.make (Scan.conversations_with_unread st ++ [summary])%list
                  total_scanned)
       | None => ret (Scan.make (Scan.conversations_with_unread st) total_scanned)
       end)
      (fun e => ret (Scan.make (Scan.conversations_with_unread st) total_scanned)).

Definition get_unread_conversations_tool (include_dms include_spaces : bool)
  (max_results : Z) : M world UnreadConversations.t :=
  all_spaces <- list_chat_spaces ;;
  st <- for_eachM (scan_body include_dms include_spaces) all_spaces
          (Scan.make [] 0) ;;
  let conversations_with_unread :=
    sort_desc Summary.unread_count (Scan.conversations_with_unread st) in
  let conversations_with_unread := slice_to max_results conversations_with_unread in
  ret {| UnreadConversations.total_spaces_scanned := Scan.total_scanned st;
         UnreadConversations.conversations_with_unread :=
           len conversations_with_unread;
         UnreadConversations.conversations := conversations_with_unread |}.

(** ** The other functions of [api/read_state.py] *)

(** The requests [getThreadReadState], [updateSpaceReadState(name,
    updateMask, body)] and [findDirectMessage] of the service, each with
    its [execute()]. *)
Variable getThreadReadState : service -> string -> M world ReadState.t.
Variable updateSpaceReadState :
  service -> string -> string -> ReadState.t -> M world ReadState.t.
Variable findDirectMessage : service -> string -> M world Space.t.

(** The clock: the fields of the current UTC time. *)
Variable clock : world -> DateTime.t * world.

(** [datetime.now(timezone.utc)] *)
Definition datetime_now_utc : M world DateTime.t :=
  fun w => let '(d, w') := clock w in (Ok (DateTime.utc d), w').

Definition get_thread_read_state (space_name thread_name : string)
  : M world ReadState.t :=
  try_except
    (creds <- get_credentials ;;
     if negb creds then
       raise (Exception "No valid credentials found. Please authenticate first.")
     else
       service <- build "chat" "v1" ;;
       let space_name := _normalize_space_name space_name in
       let thread_name :=
         if negb (startswith thread_name "spaces/") then
           if startswith thread_name "threads/" then space_name ++ "/" ++ thread_name
           else space_name ++ "/threads/" ++ thread_name
         else thread_name in
       user_id <- _get_user_id_from_credentials ;;
       let resource_name :=
         user_id ++ "/" ++ space_name ++ "/threads/"
         ++ last (str_split "/" thread_name) "" ++ "/threadReadState" in
       result <- getThreadReadState service resource_name ;;
       ret result)
    (fun e => raise (Exception ("Failed to get thread read state: " ++ str e))).

(** Line 204: the current time with milliseconds and ['Z']. *)
Definition utc_timestamp (now : DateTime.t) : string :=
  str_drop_last 3 (DateTime.strftime now) ++ "Z".

Definition update_space_read_state (space_name : string)
  (last_read_time : option string) : M world ReadState.t :=
  try_except
    (creds <- get_credentials ;;
     if negb creds then
       raise (Exception "No valid credentials found. Please authenticate first.")
     else
       service <- build "chat" "v1" ;;
       let space_name := _normalize_space_name space_name in
       user_id <- _get_user_id_from_credentials ;;
       let resource_name := user_id ++ "/" ++ space_name ++ "/spaceReadState" in
       last_read_time <-
         match last_read_time with
         | None => now <- datetime_now_utc ;; ret (utc_timestamp now)
         | Some t => ret t
         end ;;
       let update_body := ReadState.make None (Some last_read_time) in
       result <- updateSpaceReadState service resource_name "lastReadTime"
                   update_body ;;
       ret result)
    (fun e => raise (Exception ("Failed to update space read state: " ++ str e))).

Definition find_direct_message_space (user_email : string) : M world Space.t :=
  try_except
    (creds <- get_credentials ;;
     if negb creds then
       raise (Exception "No valid credentials found. Please authenticate first.")
     else
       service <- build "chat" "v1" ;;
       let user_reference := "users/" ++ user_email in
       result <- findDirectMessage service user_reference ;;
       ret result)
    (fun e =>
       raise (Exception ("Failed to find DM space with user " ++ user_email ++ ": "
                         ++ str e))).

(** ** The other tools of [tools/read_state_tools.py] *)

Definition mark_space_as_read_tool (space_name : string) : M world MarkedRead.t :=
  let space_name :=
    if negb (startswith space_name "spaces/") then "spaces/" ++ space_name
    else space_name in
  result <- update_space_read_state space_name None ;;
  ret {| MarkedRead.space_name := space_name;
         MarkedRead.last_read_time := ReadState.lastReadTime result;
         MarkedRead.success := true |}.

(** Lines 600-610: the age in words. *)
Definition format_elapsed (diff : DateTime.timedelta) : string :=
  if DateTime.days diff =? 0 then
    let hours := DateTime.seconds diff / 3600 in
    if hours =? 0 then
      let minutes := DateTime.seconds diff / 60 in
      str_of_int minutes ++ " minutes ago"
    else str_of_int hours ++ " hours ago"
  else if DateTime.days diff =? 1 then "Yesterday"
  else str_of_int (DateTime.days diff) ++ " days ago".

Definition get_space_read_state_tool (space_name : string) : M world ReadStateInfo.t :=
  let space_name :=
    if negb (startswith space_name "spaces/") then "spaces/" ++ space_name
    else space_name in
  result <- get_space_read_state space_name ;;
  let last_read_time := default "" (ReadState.lastReadTime result) in
  formatted_last_read <-
    (if truthy_str last_read_time then
       try_except
         (match _parse_timestamp last_read_time with
          | Some dt =>
              now <- datetime_now_utc ;;
              diff <- lift (DateTime.sub now dt) ;;
              ret (format_elapsed diff)
          | None => ret "Never read"
          end)
         (fun _ => ret last_read_time)
     else ret "Never read") ;;
  ret {| ReadStateInfo.name := ReadState.name result;
         ReadStateInfo.space_name := space_name;
         ReadStateInfo.last_read_time := last_read_time;
         ReadStateInfo.formatted_last_read := formatted_last_read |}.

(** ** The notions the properties are stated with *)

(** The filter on the kind of space: a direct message passes when
    [include_dms] is set, any other space when [include_spaces] is set. *)
Definition included (include_dms include_spaces : bool) (space : Space.t) : bool :=
  if String.eqb (default "SPACE" (Space.spaceType space)) "DIRECT_MESSAGE"
  then include_dms
  else include_spaces.

(** The test of lines 168-172: whether the creation time of the message
    can be read and is later than the last-read time.  Comparing a naive
    with an aware time raises. *)
Definition is_unread (last_read_dt : option DateTime.t) (message : Message.t)
  : result bool :=
  match Message.createTime message with
  | Some create_time =>
      match _parse_timestamp create_time, last_read_dt with
      | Some create_dt, Some last_read_dt => DateTime.gt create_dt last_read_dt
      | _, _ => Ok false
      end
  | None => Ok false
  end.

(** [m.createTime > R]: the creation time of [m] can be read and is
    strictly later than [R]. *)
Definition created_after (R : DateTime.t) (m : Message.t) : bool :=
  match Message.createTime m with
  | Some create_time =>
      match _parse_timestamp create_time with
      | Some create_dt => DateTime.later create_dt R
      | None => false
      end
  | None => false
  end.

(** The creation time of [m] can be read, is aware and is strictly later
    than [R]. *)
Definition aware_after (R : DateTime.t) (m : Message.t) : bool :=
  match Message.createTime m with
  | Some create_time =>
      match _parse_timestamp create_time with
      | Some create_dt => DateTime.aware create_dt && DateTime.later create_dt R
      | None => false
      end
  | None => false
  end.

(** The creation time of [m], when it can be read, is aware exactly when
    [R] is. *)
Definition comparable (R : DateTime.t) (m : Message.t) : bool :=
  match Message.createTime m with
  | Some create_time =>
      match _parse_timestamp create_time with
      | Some create_dt => Bool.eqb (DateTime.aware create_dt) (DateTime.aware R)
      | None => true
      end
  | None => true
  end.

(** Lines 324-329: the counters after one more unread message. *)
Definition count_unread (c : Counters.t) (message : Message.t) : Counters.t :=
  match Counters.latest_message_time c with
  | None =>
      Counters.make (Counters.unread_count c + 1) (Message.createTime message)
        (let text := default (unicode_of "") (Message.text message) in
         if truthy_unicode text then Some (preview_of text)
         else Counters.latest_message_preview c)
  | Some _ =>
      Counters.make (Counters.unread_count c + 1) (Counters.latest_message_time c)
        (Counters.latest_message_preview c)
  end.

(** The preview the specification describes for a text: the whole text
    when it has at most 100 characters, else its first 100 characters and
    the ellipsis.  A character is a code point. *)
Definition preview_text (text : unicode) : unicode :=
  if ulen text <=? 100 then text
  else (uslice_to 100 text ++ unicode_of "...")%list.

(** What the [try] block does for each space that passes the filter, in
    the order of the scan, and the world after the scan. *)
Fixpoint outcomes (include_dms include_spaces : bool) (all_spaces : list Space.t)
  (w : world) : list (Space.t * result (option Summary.t)) * world :=
  match all_spaces with
  | [] => ([], w)
  | space :: rest =>
      if included include_dms include_spaces space then
        let '(r, w') :=
          check_space (default "" (Space.name space))
            (default "Unnamed Space" (Space.displayName space))
            (default "SPACE" (Space.spaceType space)) w in
        let '(l, w'') := outcomes include_dms include_spaces rest w' in
        ((space, r) :: l, w'')
      else outcomes include_dms include_spaces rest w
  end.

(** The summary of a space that was checked without error and has unread
    messages. *)
Definition summary_of (o : Space.t * result (option Summary.t)) : list Summary.t :=
  match snd o with
  | Ok (Some summary) => [summary]
  | _ => []
  end.

(** Checked without error, with unread messages. *)
Definition with_unread (o : Space.t * result (option Summary.t)) : bool :=
  match snd o with
  | Ok (Some _) => true
  | _ => false
  end.

(** The summaries of the scan, in scan order. *)
Definition collected (l : list (Space.t * result (option Summary.t)))
  : list Summary.t :=
  flat_map summary_of l.

Definition has_count (k : Z) (summary : Summary.t) : bool :=
  Summary.unread_count summary =? k.

Definition starts {A : Type} (l1 l2 : list A) : Prop :=
  exists l3, l2 = (l1 ++ l3)%list.

(** What every summary of the scan shows: at least one unread message,
    the creation time of a message, a last-read time, and the name, type
    and display name of a space that passes the filter. *)
Definition well_formed_summary (include_dms include_spaces : bool)
  (all_spaces : list Space.t) (summary : Summary.t) : Prop :=
  1 <= Summary.unread_count summary
  /\ (exists t, Summary.latest_message_time summary = Some t /\ truthy_str t = true)
  /\ truthy_str (Summary.last_read_time summary) = true
  /\ exists space,
      In space all_spaces
      /\ included include_dms include_spaces space = true
      /\ Summary.space_name summary = default "" (Space.name space)
      /\ Summary.space_type summary = default "SPACE" (Space.spaceType space)
      /\ Summary.display_name summary
         = default "Unnamed Space" (Space.displayName space).

(** The age in words of a last-read time that lies [us] microseconds
    back. *)
Definition age_in_words (us : Z) : string :=
  if (0 <=? us) && (us <? 3600000000) then
    str_of_int (us / 60000000) ++ " minutes ago"
  else if (3600000000 <=? us) && (us <? 86400000000) then
    str_of_int (us / 3600000000) ++ " hours ago"
  else if (86400000000 <=? us) && (us <? 172800000000) then "Yesterday"
  else str_of_int (us / 86400000000) ++ " days ago".

(** An [Exception] whose message starts with [prefix]. *)
Definition wrapped (prefix : string) (e : exn) : Prop :=
  exists msg, e = Exception (prefix ++ msg).

(** The last piece of a name, [name.split('/')[-1]]. *)
Definition last_piece (name : string) : string := last (str_split "/" name) "".

(** ** Properties *)

(** *** Resource names *)

Lemma startswith_app (p s : string) : startswith (p ++ s) p = true.
Proof.
  unfold startswith.
  induction p as [|c p IH]; simpl.
  - destruct s; reflexivity.
  - destruct (ascii_dec c c) as [_|n]; [exact IH | now elim n].
Qed.

(** C8.  For every string [s], the space-name normalizer (a total function:
    it has no failing branch) returns a name that starts with ['spaces/'],
    and normalizing twice gives the same name as normalizing once. *)
Theorem normalize_space_name_idempotent (s : string) :
  _normalize_space_name (_normalize_space_name s) = _normalize_space_name s
  /\ startswith (_normalize_space_name s) "spaces/" = true.
Proof.
  assert (P : startswith (_normalize_space_name s) "spaces/" = true).
  { unfold _normalize_space_name.
    destruct (startswith s "spaces/") eqn:E; cbn [negb].
    - exact E.
    - apply startswith_app. }
  split; [|exact P].
  unfold _normalize_space_name at 1. now rewrite P.
Qed.

(** *** Loops *)

Lemma for_each_app {A S : Type} (body : S -> A -> result S) (l1 l2 : list A) (s : S) :
  for_each body (l1 ++ l2)%list s = rbind (for_each body l1 s) (for_each body l2).
Proof.
  revert s.
  induction l1 as [|x l1 IH]; intros s; simpl; [reflexivity|].
  destruct (body s x) as [s'|e]; simpl; [apply IH | reflexivity].
Qed.

Lemma for_each_skip {A S : Type} (body : S -> A -> result S) (l : list A) (s : S) :
  Forall (fun x => body s x = Ok s) l -> for_each body l s = Ok s.
Proof.
  induction 1 as [|x l Hx _ IH]; simpl; [reflexivity|].
  now rewrite Hx.
Qed.

(** *** Timestamps *)

Lemma parse_timestamp_empty (s : string) :
  truthy_str s = false -> _parse_timestamp s = None.
Proof. intros E. unfold _parse_timestamp. now rewrite E. Qed.

Lemma parse_timestamp_epoch :
  _parse_timestamp "1970-01-01T00:00:00.000Z"
  = fromisoformat "1970-01-01T00:00:00.000+00:00".
Proof. reflexivity. Qed.

Lemma last_read_time_absent (o : option string) :
  truthy o = false -> last_read_time_or_epoch o = "1970-01-01T00:00:00.000Z".
Proof.
  unfold last_read_time_or_epoch, truthy.
  destruct o as [s|]; [|reflexivity]. now intros ->.
Qed.

Lemma last_read_time_present (s : string) :
  truthy_str s = true -> last_read_time_or_epoch (Some s) = s.
Proof. intros E. unfold last_read_time_or_epoch. now rewrite E. Qed.

(** *** The two loop bodies test [is_unread] *)

Lemma unread_body_spec (lr : option DateTime.t) (acc : list Message.t) (m : Message.t) :
  unread_body lr acc m
  = rbind (is_unread lr m) (fun b => Ok (if b then (acc ++ [m])%list else acc)).
Proof.
  unfold unread_body, is_unread.
  destruct (Message.createTime m) as [ct|]; [|reflexivity].
  destruct (truthy_str ct) eqn:E.
  - destruct (_parse_timestamp ct) as [c|], lr as [l|]; try reflexivity.
    unfold rbind. destruct (DateTime.gt c l) as [[|]|]; reflexivity.
  - now rewrite (parse_timestamp_empty ct E).
Qed.

Lemma count_body_spec (lr : option DateTime.t) (c : Counters.t) (m : Message.t) :
  count_body lr c m
  = rbind (is_unread lr m) (fun b => Ok (if b then count_unread c m else c)).
Proof.
  unfold count_body, is_unread, count_unread.
  destruct (Message.createTime m) as [ct|]; [|reflexivity].
  destruct (truthy_str ct) eqn:E.
  - destruct (_parse_timestamp ct) as [d|], lr as [l|]; try reflexivity.
    unfold rbind. destruct (DateTime.gt d l) as [[|]|]; try reflexivity.
    destruct (Counters.latest_message_time c); [reflexivity|].
    cbv zeta. now destruct (truthy_unicode (default (unicode_of "") (Message.text m))).
  - now rewrite (parse_timestamp_empty ct E).
Qed.

Lemma unread_body_read (lr : option DateTime.t) (acc : list Message.t) (m : Message.t) :
  is_unread lr m = Ok false -> unread_body lr acc m = Ok acc.
Proof. intros H. now rewrite unread_body_spec, H. Qed.

Lemma count_body_read (lr : option DateTime.t) (c : Counters.t) (m : Message.t) :
  is_unread lr m = Ok false -> count_body lr c m = Ok c.
Proof. intros H. now rewrite count_body_spec, H. Qed.

Lemma is_unread_unparsable (lr : option DateTime.t) (m : Message.t) (s : string) :
  Message.createTime m = Some s -> _parse_timestamp s = None ->
  is_unread lr m = Ok false.
Proof. intros Hc Hp. unfold is_unread. now rewrite Hc, Hp. Qed.

Lemma is_unread_no_reference (m : Message.t) : is_unread None m = Ok false.
Proof.
  unfold is_unread.
  destruct (Message.createTime m) as [ct|]; [|reflexivity].
  now destruct (_parse_timestamp ct).
Qed.

Lemma gt_same_kind (a b : DateTime.t) :
  DateTime.aware a = DateTime.aware b -> DateTime.gt a b = Ok (DateTime.later a b).
Proof.
  unfold DateTime.gt, DateTime.later, DateTime.timeline, DateTime.aware.
  destruct (DateTime.tzinfo a), (DateTime.tzinfo b); simpl; intros H;
    try discriminate H; try reflexivity.
  now rewrite !Z.sub_0_r.
Qed.

Lemma is_unread_comparable (R : DateTime.t) (m : Message.t) :
  comparable R m = true -> is_unread (Some R) m = Ok (created_after R m).
Proof.
  unfold comparable, created_after, is_unread.
  destruct (Message.createTime m) as [ct|]; [|reflexivity].
  destruct (_parse_timestamp ct) as [c|]; [|reflexivity].
  intros H. apply gt_same_kind. now apply eqb_prop.
Qed.

Lemma is_unread_aware_after (m : Message.t) :
  aware_after DateTime.epoch m = true -> is_unread (Some DateTime.epoch) m = Ok true.
Proof.
  unfold aware_after, is_unread.
  destruct (Message.createTime m) as [ct|]; [|discriminate].
  destruct (_parse_timestamp ct) as [c|]; [|discriminate].
  intros H. apply andb_prop in H. destruct H as [Ha Hl].
  rewrite (gt_same_kind c DateTime.epoch), Hl; [reflexivity | now rewrite Ha].
Qed.

(** *** The unread messages are the later messages, in order *)

Lemma unread_loop_filter (R : DateTime.t) (M : list Message.t) :
  Forall (fun m => comparable R m = true) M ->
  forall acc,
    for_each (unread_body (Some R)) M acc
    = Ok (acc ++ filter (created_after R) M)%list.
Proof.
  induction 1 as [|m M Hm _ IH]; intros acc; simpl.
  - now rewrite app_nil_r.
  - rewrite unread_body_spec, (is_unread_comparable R m Hm). simpl.
    destruct (created_after R m); rewrite IH; [|reflexivity].
    now rewrite <- app_assoc.
Qed.

Lemma count_loop_filter (R : DateTime.t) (M : list Message.t) :
  Forall (fun m => comparable R m = true) M ->
  forall c, exists c',
    for_each (count_body (Some R)) M c = Ok c'
    /\ Counters.unread_count c'
       = Counters.unread_count c + len (filter (created_after R) M).
Proof.
  unfold len.
  induction 1 as [|m M Hm _ IH]; intros c; simpl.
  - exists c. split; [reflexivity | lia].
  - rewrite count_body_spec, (is_unread_comparable R m Hm). simpl.
    destruct (created_after R m).
    + destruct (IH (count_unread c m)) as (c' & E & N).
      exists c'. split; [exact E|].
      rewrite N. unfold count_unread.
      destruct (Counters.latest_message_time c); simpl length; simpl; lia.
    + apply IH.
Qed.

(** C1 (amended).  For every list of messages [M] and every last-read
    time [R] such that no creation time of [M] that can be read is naive
    where [R] is aware, or aware where [R] is naive, the loop of
    [get_unread_messages_tool] returns exactly the messages of [M] whose
    creation time is strictly later than [R], in the order of [M], and
    the loop of [get_unread_conversations_tool] counts exactly these. *)
Theorem unread_classification_filters_later_messages
  (M : list Message.t) (R : DateTime.t) :
  Forall (fun m => comparable R m = true) M ->
  for_each (unread_body (Some R)) M [] = Ok (filter (created_after R) M)
  /\ exists c,
      for_each (count_body (Some R)) M (Counters.make 0 None None) = Ok c
      /\ Counters.unread_count c = len (filter (created_after R) M).
Proof.
  intros H. split.
  - now rewrite (unread_loop_filter R M H).
  - destruct (count_loop_filter R M H (Counters.make 0 None None)) as (c & E & N).
    exists c. split; [exact E | exact N].
Qed.

(** *** A missing last-read time *)

Lemma unread_loop_all (lr : option DateTime.t) (M : list Message.t) :
  Forall (fun m => is_unread lr m = Ok true) M ->
  forall acc, for_each (unread_body lr) M acc = Ok (acc ++ M)%list.
Proof.
  induction 1 as [|m M Hm _ IH]; intros acc; simpl.
  - now rewrite app_nil_r.
  - rewrite unread_body_spec, Hm. simpl. rewrite IH.
    now rewrite <- app_assoc.
Qed.

Lemma count_loop_all (lr : option DateTime.t) (M : list Message.t) :
  Forall (fun m => is_unread lr m = Ok true) M ->
  forall c, exists c',
    for_each (count_body lr) M c = Ok c'
    /\ Counters.unread_count c' = Counters.unread_count c + len M.
Proof.
  unfold len.
  induction 1 as [|m M Hm _ IH]; intros c; simpl.
  - exists c. split; [reflexivity | lia].
  - rewrite count_body_spec, Hm. simpl.
    destruct (IH (count_unread c m)) as (c' & E & N).
    exists c'. split; [exact E|].
    rewrite N. unfold count_unread.
    destruct (Counters.latest_message_time c); simpl; lia.
Qed.

(** C2 (amended).  When [lastReadTime] is missing or empty, the epoch
    1970-01-01T00:00:00.000Z takes its place; for every list [M] whose
    creation times can all be read, are aware and are strictly later than
    the epoch, both loops then treat every message of [M] as unread. *)
Theorem absent_last_read_time_all_unread
  (M : list Message.t) (last_read_time : option string) :
  truthy last_read_time = false ->
  fromisoformat "1970-01-01T00:00:00.000+00:00" = Some DateTime.epoch ->
  Forall (fun m => aware_after DateTime.epoch m = true) M ->
  let last_read_dt := _parse_timestamp (last_read_time_or_epoch last_read_time) in
  last_read_time_or_epoch last_read_time = "1970-01-01T00:00:00.000Z"
  /\ for_each (unread_body last_read_dt) M [] = Ok M
  /\ exists c,
      for_each (count_body last_read_dt) M (Counters.make 0 None None) = Ok c
      /\ Counters.unread_count c = len M.
Proof.
  intros Ha He HM. cbv zeta.
  assert (HU : Forall (fun m => is_unread (Some DateTime.epoch) m = Ok true) M).
  { eapply Forall_impl; [|exact HM]. exact is_unread_aware_after. }
  clear HM. rename HU into HM.
  rewrite (last_read_time_absent _ Ha), parse_timestamp_epoch, He.
  split; [reflexivity|]. split.
  - now rewrite (unread_loop_all _ M HM).
  - destruct (count_loop_all _ M HM (Counters.make 0 None None)) as (c & E & N).
    exists c. split; [exact E | exact N].
Qed.

Lemma unread_loop_sound (lr : option DateTime.t) (M : list Message.t) :
  forall acc l,
    for_each (unread_body lr) M acc = Ok l ->
    forall m, In m l -> In m acc \/ (In m M /\ is_unread lr m = Ok true).
Proof.
  induction M as [|x M IH]; intros acc l; simpl.
  - intros [= <-] m Hm. now left.
  - rewrite unread_body_spec.
    destruct (is_unread lr x) as [b|e] eqn:E; simpl; [|discriminate].
    intros H m Hm.
    destruct (IH _ _ H m Hm) as [Hacc|[HM Hu]].
    + destruct b; [|now left].
      apply in_app_or in Hacc. destruct Hacc as [Hacc|[<-|[]]]; [now left|].
      right. split; [now left | exact E].
    + right. split; [now right | exact Hu].
Qed.

(** *** Running the tools *)

Lemma bind_ok {A B : Type} (m : M world A) (k : A -> M world B) (w w' : world) (a : A) :
  m w = (Ok a, w') -> (x <- m ;; k x) w = k a w'.
Proof. intros H. unfold bind. now rewrite H. Qed.

Lemma bind_raise {A B : Type} (m : M world A) (k : A -> M world B) (w w' : world)
  (e : exn) :
  m w = (Raise e, w') -> (x <- m ;; k x) w = (Raise e, w').
Proof. intros H. unfold bind. now rewrite H. Qed.

(** One step of a run: the call whose outcome [H] gives is replaced by
    that outcome. *)
Ltac run H :=
  first [ rewrite (bind_ok _ _ _ _ _ H) | rewrite (bind_raise _ _ _ _ _ H) ].

Lemma get_unread_messages_tool_run (space_name : string) (include_sender_info : bool)
  (max_results : Z) (w w1 w2 : world) (rs : ReadState.t) (mr : MessagesResult.t) :
  get_space_read_state (_normalize_space_name space_name) w = (Ok rs, w1) ->
  list_space_messages (_normalize_space_name space_name) include_sender_info
    max_results "createTime desc" w1 = (Ok mr, w2) ->
  forall unread_messages,
    for_each
      (unread_body (_parse_timestamp (last_read_time_or_epoch (ReadState.lastReadTime rs))))
      (default [] (MessagesResult.messages mr)) [] = Ok unread_messages ->
    exists r,
      get_unread_messages_tool space_name include_sender_info max_results w = (Ok r, w2)
      /\ UnreadMessages.messages r = unread_messages
      /\ UnreadMessages.unread_count r = len unread_messages
      /\ UnreadMessages.last_read_time r
         = last_read_time_or_epoch (ReadState.lastReadTime rs).
Proof.
  intros H1 H2 l Hl.
  unfold get_unread_messages_tool.
  change (if negb (startswith space_name "spaces/")
          then "spaces/" ++ space_name else space_name)
    with (_normalize_space_name space_name).
  cbv zeta.
  run H1. run H2.
  unfold bind, lift, ret. rewrite Hl.
  eexists. split; [reflexivity|]. simpl. auto.
Qed.

Lemma check_space_run (space_name display_name space_type : string) (w w1 w2 : world)
  (rs : ReadState.t) (mr : MessagesResult.t) (c : Counters.t) :
  get_space_read_state space_name w = (Ok rs, w1) ->
  list_space_messages space_name false 20 "createTime desc" w1 = (Ok mr, w2) ->
  for_each
    (count_body (_parse_timestamp (last_read_time_or_epoch (ReadState.lastReadTime rs))))
    (default [] (MessagesResult.messages mr)) (Counters.make 0 None None) = Ok c ->
  check_space space_name display_name space_type w
  = (Ok (if 0 <? Counters.unread_count c
         then Some {| Summary.space_name := space_name;
                      Summary.display_name := display_name;
                      Summary.space_type := space_type;
                      Summary.last_read_time :=
                        last_read_time_or_epoch (ReadState.lastReadTime rs);
                      Summary.unread_count := Counters.unread_count c;
                      Summary.latest_message_time := Counters.latest_message_time c;
                      Summary.preview := Counters.latest_message_preview c |}
         else None), w2).
Proof.
  intros H1 H2 Hc.
  unfold check_space. cbv zeta.
  run H1. run H2.
  unfold bind, lift, ret. rewrite Hc.
  now destruct (0 <? Counters.unread_count c).
Qed.

Lemma check_space_fetch_fails (space_name display_name space_type : string)
  (w w' : world) (e : exn) :
  get_space_read_state space_name w = (Raise e, w') ->
  check_space space_name display_name space_type w = (Raise e, w').
Proof. intros H. unfold check_space. now run H. Qed.

Lemma check_space_listing_fails (space_name display_name space_type : string)
  (w w1 w' : world) (rs : ReadState.t) (e : exn) :
  get_space_read_state space_name w = (Ok rs, w1) ->
  list_space_messages space_name false 20 "createTime desc" w1 = (Raise e, w') ->
  check_space space_name display_name space_type w = (Raise e, w').
Proof.
  intros H1 H2. unfold check_space. cbv zeta.
  run H1. now run H2.
Qed.

Lemma check_space_unread (space_name display_name space_type : string)
  (w w' : world) (summary : Summary.t) :
  check_space space_name display_name space_type w = (Ok (Some summary), w') ->
  0 < Summary.unread_count summary.
Proof.
  unfold check_space, bind, lift, ret. cbv zeta.
  destruct (get_space_read_state space_name w) as [[rs|e] w1]; [|discriminate].
  destruct (list_space_messages space_name false 20 "createTime desc" w1)
    as [[mr|e] w2]; [|discriminate].
  destruct (for_each _ _ _) as [c|e]; [|discriminate].
  destruct (0 <? Counters.unread_count c) eqn:E; [|discriminate].
  intros [= <- _]. simpl. lia.
Qed.

(** The unread messages of the tool are the later messages, when the
    remote calls succeed. *)
Corollary get_unread_messages_tool_later_messages (space_name : string)
  (include_sender_info : bool) (max_results : Z) (w w1 w2 : world)
  (rs : ReadState.t) (mr : MessagesResult.t) (s : string) (R : DateTime.t) :
  get_space_read_state (_normalize_space_name space_name) w = (Ok rs, w1) ->
  ReadState.lastReadTime rs = Some s ->
  _parse_timestamp s = Some R ->
  list_space_messages (_normalize_space_name space_name) include_sender_info
    max_results "createTime desc" w1 = (Ok mr, w2) ->
  let all_messages := default [] (MessagesResult.messages mr) in
  Forall (fun m => comparable R m = true) all_messages ->
  exists r,
    get_unread_messages_tool space_name include_sender_info max_results w = (Ok r, w2)
    /\ UnreadMessages.messages r = filter (created_after R) all_messages
    /\ UnreadMessages.unread_count r = len (filter (created_after R) all_messages).
Proof.
  intros H1 Hs HR H2 all_messages Hc.
  assert (Ht : truthy_str s = true).
  { destruct (truthy_str s) eqn:E; [reflexivity|].
    rewrite (parse_timestamp_empty s E) in HR. discriminate HR. }
  destruct (get_unread_messages_tool_run space_name include_sender_info max_results
              w w1 w2 rs mr H1 H2 (filter (created_after R) all_messages))
    as (r & Hr & Hm & Hn & _).
  { rewrite Hs, (last_read_time_present s Ht), HR.
    now rewrite (unread_loop_filter R all_messages Hc). }
  exists r. rewrite Hm, Hn. auto.
Qed.

(** C7.  A message whose [createTime] cannot be parsed is left out by
    both loops without an exception: the loop body leaves its variables
    as they are, the loops over a list with such a message end as they end
    over the list without it, and the message is not among the unread
    messages.  So, when the remote calls succeed and the loop over the
    other messages completes, [get_unread_messages_tool] returns their
    unread messages and the check of [get_unread_conversations_tool]
    returns. *)
Theorem unparsable_createTime_is_skipped
  (M1 M2 : list Message.t) (bad : Message.t) (s : string) :
  Message.createTime bad = Some s ->
  _parse_timestamp s = None ->
  (forall lr acc, unread_body lr acc bad = Ok acc)
  /\ (forall lr c, count_body lr c bad = Ok c)
  /\ (forall lr acc,
        for_each (unread_body lr) (M1 ++ bad :: M2)%list acc
        = for_each (unread_body lr) (M1 ++ M2)%list acc)
  /\ (forall lr c,
        for_each (count_body lr) (M1 ++ bad :: M2)%list c
        = for_each (count_body lr) (M1 ++ M2)%list c)
  /\ (forall lr l,
        for_each (unread_body lr) (M1 ++ bad :: M2)%list [] = Ok l -> ~ In bad l)
  /\ (forall space_name include_sender_info max_results w w1 w2 rs mr unread_messages,
        get_space_read_state (_normalize_space_name space_name) w = (Ok rs, w1) ->
        list_space_messages (_normalize_space_name space_name) include_sender_info
          max_results "createTime desc" w1 = (Ok mr, w2) ->
        default [] (MessagesResult.messages mr) = (M1 ++ bad :: M2)%list ->
        for_each
          (unread_body
             (_parse_timestamp (last_read_time_or_epoch (ReadState.lastReadTime rs))))
          (M1 ++ M2)%list [] = Ok unread_messages ->
        exists r,
          get_unread_messages_tool space_name include_sender_info max_results w
          = (Ok r, w2)
          /\ UnreadMessages.messages r = unread_messages)
  /\ (forall space_name display_name space_type w w1 w2 rs mr c,
        get_space_read_state space_name w = (Ok rs, w1) ->
        list_space_messages space_name false 20 "createTime desc" w1 = (Ok mr, w2) ->
        default [] (MessagesResult.messages mr) = (M1 ++ bad :: M2)%list ->
        for_each
          (count_body
             (_parse_timestamp (last_read_time_or_epoch (ReadState.lastReadTime rs))))
          (M1 ++ M2)%list (Counters.make 0 None None) = Ok c ->
        exists found,
          check_space space_name display_name space_type w = (Ok found, w2)).
Proof.
  intros Hc Hp.
  assert (Hb : forall lr, is_unread lr bad = Ok false)
    by (intros lr; exact (is_unread_unparsable lr bad s Hc Hp)).
  assert (Hu : forall lr acc,
             for_each (unread_body lr) (M1 ++ bad :: M2)%list acc
             = for_each (unread_body lr) (M1 ++ M2)%list acc).
  { intros lr acc. rewrite !for_each_app.
    destruct (for_each (unread_body lr) M1 acc) as [a|e]; simpl; [|reflexivity].
    now rewrite (unread_body_read lr a bad (Hb lr)). }
  assert (Hn : forall lr c,
             for_each (count_body lr) (M1 ++ bad :: M2)%list c
             = for_each (count_body lr) (M1 ++ M2)%list c).
  { intros lr c. rewrite !for_each_app.
    destruct (for_each (count_body lr) M1 c) as [a|e]; simpl; [|reflexivity].
    now rewrite (count_body_read lr a bad (Hb lr)). }
  repeat split.
  - intros lr acc. apply unread_body_read, Hb.
  - intros lr c. apply count_body_read, Hb.
  - exact Hu.
  - exact Hn.
  - intros lr l Hl Hin.
    destruct (unread_loop_sound lr _ _ _ Hl bad Hin) as [[]|[_ H]].
    rewrite Hb in H. discriminate H.
  - intros space_name include_sender_info max_results w w1 w2 rs mr l H1 H2 Hm Hl.
    destruct (get_unread_messages_tool_run space_name include_sender_info max_results
                w w1 w2 rs mr H1 H2 l) as (r & Hr & Hrm & _).
    { now rewrite Hm, Hu. }
    exists r. split; [exact Hr | exact Hrm].
  - intros space_name display_name space_type w w1 w2 rs mr c H1 H2 Hm Hl.
    eexists.
    apply (check_space_run space_name display_name space_type w w1 w2 rs mr c H1 H2).
    now rewrite Hm, Hn.
Qed.

(** C10.  When the read state that was fetched has a [lastReadTime] that
    is not empty and cannot be parsed, and the messages were listed,
    [get_unread_messages_tool] returns no message and an [unread_count]
    of 0, and the check of [get_unread_conversations_tool] yields no
    summary for the space: the epoch takes the place of a missing or
    empty [lastReadTime] only, and the tool reports the string it
    fetched. *)
Theorem unparsable_lastReadTime_reports_no_unread
  (space_name display_name space_type : string) (include_sender_info : bool)
  (max_results : Z) (s : string) :
  truthy_str s = true ->
  _parse_timestamp s = None ->
  (forall w w1 w2 rs mr,
      get_space_read_state (_normalize_space_name space_name) w = (Ok rs, w1) ->
      ReadState.lastReadTime rs = Some s ->
      list_space_messages (_normalize_space_name space_name) include_sender_info
        max_results "createTime desc" w1 = (Ok mr, w2) ->
      exists r,
        get_unread_messages_tool space_name include_sender_info max_results w
        = (Ok r, w2)
        /\ UnreadMessages.unread_count r = 0
        /\ UnreadMessages.messages r = []
        /\ UnreadMessages.last_read_time r = s)
  /\ (forall w w1 w2 rs mr,
      get_space_read_state space_name w = (Ok rs, w1) ->
      ReadState.lastReadTime rs = Some s ->
      list_space_messages space_name false 20 "createTime desc" w1 = (Ok mr, w2) ->
      check_space space_name display_name space_type w = (Ok None, w2)).
Proof.
  intros Ht Hp. split; intros w w1 w2 rs mr H1 Hs H2.
  - destruct (get_unread_messages_tool_run space_name include_sender_info
                max_results w w1 w2 rs mr H1 H2 []) as (r & Hr & Hm & Hn & Hl).
    { rewrite Hs, (last_read_time_present s Ht), Hp.
      apply for_each_skip, Forall_forall. intros m _.
      apply unread_body_read, is_unread_no_reference. }
    exists r. rewrite Hs, (last_read_time_present s Ht) in Hl. auto.
  - rewrite (check_space_run space_name display_name space_type w w1 w2 rs mr
               (Counters.make 0 None None) H1 H2); [reflexivity|].
    rewrite Hs, (last_read_time_present s Ht), Hp.
    apply for_each_skip, Forall_forall. intros m _.
    apply count_body_read, is_unread_no_reference.
Qed.

(** *** The preview *)

Lemma preview_of_text (text : unicode) : preview_of text = preview_text text.
Proof.
  unfold preview_of, preview_text, uslice_to, ulen.
  destruct (Z.of_nat (List.length text) <=? 100) eqn:E.
  - apply Z.leb_le in E.
    replace (100 <? Z.of_nat (List.length text)) with false
      by (symmetry; apply Z.ltb_ge; exact E).
    change (unicode_of "") with (@nil N).
    rewrite app_nil_r. apply firstn_all2. lia.
  - apply Z.leb_gt in E.
    replace (100 <? Z.of_nat (List.length text)) with true
      by (symmetry; apply Z.ltb_lt; exact E).
    reflexivity.
Qed.

(** Once a latest message is recorded, the loop only counts. *)
Lemma count_loop_keeps_latest (lr : option DateTime.t) (post : list Message.t) :
  Forall (fun x => exists b, is_unread lr x = Ok b) post ->
  forall c t,
    Counters.latest_message_time c = Some t ->
    exists c',
      for_each (count_body lr) post c = Ok c'
      /\ Counters.latest_message_time c' = Some t
      /\ Counters.latest_message_preview c' = Counters.latest_message_preview c
      /\ Counters.unread_count c <= Counters.unread_count c'.
Proof.
  induction 1 as [|x post [b Hx] _ IH]; intros c t Ht; simpl.
  - exists c. repeat split; [exact Ht | lia].
  - rewrite count_body_spec, Hx. simpl. destruct b.
    + destruct (IH (count_unread c x) t) as (c' & E & T & P & N).
      { unfold count_unread. now rewrite Ht. }
      exists c'. split; [exact E|]. split; [exact T|].
      unfold count_unread in P, N. rewrite Ht in P, N. simpl in P, N.
      split; [exact P | lia].
    + now apply IH.
Qed.

Lemma count_loop_first_unread (lr : option DateTime.t) (pre post : list Message.t)
  (m : Message.t) :
  Forall (fun x => is_unread lr x = Ok false) pre ->
  is_unread lr m = Ok true ->
  Forall (fun x => exists b, is_unread lr x = Ok b) post ->
  exists c,
    for_each (count_body lr) (pre ++ m :: post)%list (Counters.make 0 None None) = Ok c
    /\ 0 < Counters.unread_count c
    /\ Counters.latest_message_time c = Message.createTime m
    /\ Counters.latest_message_preview c
       = (let text := default (unicode_of "") (Message.text m) in
          if truthy_unicode text then Some (preview_text text) else None).
Proof.
  intros Hpre Hm Hpost.
  assert (exists t, Message.createTime m = Some t) as [t Ht].
  { unfold is_unread in Hm. destruct (Message.createTime m) as [t|]; [|discriminate].
    now exists t. }
  rewrite for_each_app, (for_each_skip _ pre).
  2:{ eapply Forall_impl; [|exact Hpre]. intros x. apply count_body_read. }
  simpl. rewrite count_body_spec, Hm. simpl.
  destruct (count_loop_keeps_latest lr post Hpost
              (count_unread (Counters.make 0 None None) m) t)
    as (c & E & T & P & N).
  { unfold count_unread. simpl. exact Ht. }
  exists c. split; [exact E|].
  unfold count_unread in P, N. simpl in P, N.
  split; [lia|]. split; [now rewrite T, Ht|].
  rewrite P. cbv zeta.
  destruct (truthy_unicode (default (unicode_of "") (Message.text m))); [|reflexivity].
  now rewrite preview_of_text.
Qed.

(** C9 (amended).  For a space whose check succeeds and whose listed
    messages hold an unread one, the summary carries the creation time of
    the first unread message of the list and a preview taken from the
    text of that message alone: when that text is not empty, the whole
    text if it has at most 100 characters and else its first 100
    characters followed by ['...']; when that message has no text or an
    empty one, the summary has no preview.  The characters are the code
    points of the text, as [len] and the slice count them, in any
    script. *)
Theorem preview_of_first_unread_message
  (space_name display_name space_type : string) (w w1 w2 : world)
  (rs : ReadState.t) (mr : MessagesResult.t) (pre post : list Message.t)
  (m : Message.t) :
  get_space_read_state space_name w = (Ok rs, w1) ->
  list_space_messages space_name false 20 "createTime desc" w1 = (Ok mr, w2) ->
  default [] (MessagesResult.messages mr) = (pre ++ m :: post)%list ->
  let lr := _parse_timestamp (last_read_time_or_epoch (ReadState.lastReadTime rs)) in
  Forall (fun x => is_unread lr x = Ok false) pre ->
  is_unread lr m = Ok true ->
  Forall (fun x => exists b, is_unread lr x = Ok b) post ->
  exists summary,
    check_space space_name display_name space_type w = (Ok (Some summary), w2)
    /\ Summary.latest_message_time summary = Message.createTime m
    /\ Summary.preview summary
       = (let text := default (unicode_of "") (Message.text m) in
          if truthy_unicode text then Some (preview_text text) else None).
Proof.
  intros H1 H2 Hl lr Hpre Hm Hpost.
  destruct (count_loop_first_unread lr pre post m Hpre Hm Hpost)
    as (c & E & N & T & P).
  rewrite <- Hl in E.
  rewrite (check_space_run space_name display_name space_type w w1 w2 rs mr c H1 H2 E).
  replace (0 <? Counters.unread_count c) with true
    by (symmetry; apply Z.ltb_lt; exact N).
  eexists. split; [reflexivity|]. simpl. split; [exact T | exact P].
Qed.

(** *** The stable sort and the slice *)

Lemma insert_desc_perm {A : Type} (key : A -> Z) (x : A) (l : list A) :
  Permutation (insert_desc key x l) (x :: l).
Proof.
  induction l as [|y l IH]; simpl; [reflexivity|].
  destruct (key x <? key y); [|reflexivity].
  rewrite IH. apply perm_swap.
Qed.

Lemma sort_desc_perm {A : Type} (key : A -> Z) (l : list A) :
  Permutation (sort_desc key l) l.
Proof.
  induction l as [|x l IH]; simpl; [reflexivity|].
  rewrite insert_desc_perm. now apply perm_skip.
Qed.

Lemma insert_desc_sorted {A : Type} (key : A -> Z) (x : A) (l : list A) :
  StronglySorted (fun a b => key b <= key a) l ->
  StronglySorted (fun a b => key b <= key a) (insert_desc key x l).
Proof.
  induction 1 as [|y l Hl IH Hy]; simpl.
  - constructor; constructor.
  - destruct (key x <? key y) eqn:E.
    + apply Z.ltb_lt in E. constructor; [exact IH|].
      apply (Permutation_Forall (Permutation_sym (insert_desc_perm key x l))).
      constructor; [lia | exact Hy].
    + apply Z.ltb_ge in E. constructor; [now constructor|].
      constructor; [exact E|].
      eapply Forall_impl; [|exact Hy]. intros z Hz. simpl in Hz. lia.
Qed.

Lemma sort_desc_sorted {A : Type} (key : A -> Z) (l : list A) :
  StronglySorted (fun a b => key b <= key a) (sort_desc key l).
Proof.
  induction l as [|x l IH]; simpl; [constructor|].
  now apply insert_desc_sorted.
Qed.

Lemma insert_desc_stable {A : Type} (key : A -> Z) (k : Z) (x : A) (l : list A) :
  filter (fun y => key y =? k) (insert_desc key x l)
  = filter (fun y => key y =? k) (x :: l).
Proof.
  induction l as [|y l IH]; simpl; [reflexivity|].
  destruct (key x <? key y) eqn:E; [|reflexivity].
  apply Z.ltb_lt in E. simpl. rewrite IH. simpl.
  destruct (key x =? k) eqn:Ex, (key y =? k) eqn:Ey; try reflexivity.
  apply Z.eqb_eq in Ex, Ey. lia.
Qed.

Lemma sort_desc_stable {A : Type} (key : A -> Z) (k : Z) (l : list A) :
  filter (fun y => key y =? k) (sort_desc key l) = filter (fun y => key y =? k) l.
Proof.
  induction l as [|x l IH]; simpl; [reflexivity|].
  rewrite insert_desc_stable. simpl. now rewrite IH.
Qed.

Lemma firstn_Forall {A : Type} (P : A -> Prop) (n : nat) (l : list A) :
  Forall P l -> Forall P (firstn n l).
Proof.
  intros H. revert n.
  induction H as [|x l Hx _ IH]; intros [|n]; simpl; constructor; auto.
Qed.

Lemma firstn_sorted {A : Type} (R : A -> A -> Prop) (n : nat) (l : list A) :
  StronglySorted R l -> StronglySorted R (firstn n l).
Proof.
  intros H. revert n.
  induction H as [|x l _ IH Hx]; intros [|n]; simpl; try constructor.
  - apply IH.
  - now apply firstn_Forall.
Qed.

Lemma firstn_filter_starts {A : Type} (p : A -> bool) (n : nat) (l : list A) :
  starts (filter p (firstn n l)) (filter p l).
Proof.
  exists (filter p (skipn n l)).
  now rewrite <- filter_app, firstn_skipn.
Qed.

Lemma slice_to_firstn {A : Type} (k : Z) (l : list A) :
  exists j, slice_to k l = firstn j l.
Proof. unfold slice_to. destruct (0 <=? k); eexists; reflexivity. Qed.

Lemma slice_to_length {A : Type} (k : Z) (l : list A) :
  0 <= k -> len (slice_to k l) = Z.min (len l) k.
Proof.
  intros H. unfold slice_to, len.
  replace (0 <=? k) with true by (symmetry; now apply Z.leb_le).
  rewrite length_firstn. lia.
Qed.

(** *** The scan *)

Lemma scan_body_skip (include_dms include_spaces : bool) (st : Scan.t)
  (space : Space.t) (w : world) :
  included include_dms include_spaces space = false ->
  scan_body include_dms include_spaces st space w = (Ok st, w).
Proof.
  unfold scan_body, included.
  destruct (String.eqb _ "DIRECT_MESSAGE"), include_dms, include_spaces;
    intros H; try discriminate H; reflexivity.
Qed.

Lemma scan_body_run (include_dms include_spaces : bool) (st : Scan.t)
  (space : Space.t) (w w' : world) (r : result (option Summary.t)) :
  included include_dms include_spaces space = true ->
  check_space (default "" (Space.name space))
    (default "Unnamed Space" (Space.displayName space))
    (default "SPACE" (Space.spaceType space)) w = (r, w') ->
  scan_body include_dms include_spaces st space w
  = (Ok (Scan.make (Scan.conversations_with_unread st ++ summary_of (space, r))%list
           (Scan.total_scanned st + 1)), w').
Proof.
  intros Hi Hc.
  assert (E : scan_body include_dms include_spaces st space w
              = try_except
                  (found <- check_space (default "" (Space.name space))
                              (default "Unnamed Space" (Space.displayName space))
                              (default "SPACE" (Space.spaceType space)) ;;
                   ret (Scan.make
                          (Scan.conversations_with_unread st
                           ++ summary_of (space, Ok found))%list
                          (Scan.total_scanned st + 1)))
                  (fun _ => ret (Scan.make (Scan.conversations_with_unread st)
                                   (Scan.total_scanned st + 1))) w).
  { unfold scan_body, included in *.
    destruct (String.eqb _ "DIRECT_MESSAGE"), include_dms, include_spaces;
      try discriminate Hi; cbn [negb andb]; cbv zeta;
      unfold try_except, bind, summary_of;
      destruct (check_space _ _ _ w) as [[[summary|]|e] w1]; simpl;
      rewrite ?app_nil_r; reflexivity. }
  rewrite E. unfold try_except, bind, ret, summary_of. rewrite Hc.
  destruct r as [found|e]; simpl; rewrite ?app_nil_r; reflexivity.
Qed.

Lemma scan_run (include_dms include_spaces : bool) (all_spaces : list Space.t) :
  forall (st : Scan.t) (w : world),
    for_eachM (scan_body include_dms include_spaces) all_spaces st w
    = (Ok (Scan.make
             (Scan.conversations_with_unread st
              ++ collected (fst (outcomes include_dms include_spaces all_spaces w)))%list
             (Scan.total_scanned st
              + len (fst (outcomes include_dms include_spaces all_spaces w)))),
       snd (outcomes include_dms include_spaces all_spaces w)).
Proof.
  unfold len, collected.
  induction all_spaces as [|space rest IH]; intros st w.
  - destruct st. simpl. unfold ret. now rewrite app_nil_r, Z.add_0_r.
  - cbn [for_eachM outcomes].
    destruct (included include_dms include_spaces space) eqn:Hi.
    + destruct (check_space _ _ _ w) as [r w'] eqn:Hc.
      run (scan_body_run include_dms include_spaces st space w w' r Hi Hc).
      rewrite IH.
      destruct (outcomes include_dms include_spaces rest w') as [l w''].
      cbn [fst snd flat_map List.length Scan.conversations_with_unread
             Scan.total_scanned].
      rewrite <- app_assoc, Nat2Z.inj_succ. do 3 f_equal. lia.
    + run (scan_body_skip include_dms include_spaces st space w Hi).
      apply IH.
Qed.

Lemma outcomes_spaces (include_dms include_spaces : bool) (all_spaces : list Space.t) :
  forall w,
    map fst (fst (outcomes include_dms include_spaces all_spaces w))
    = filter (included include_dms include_spaces) all_spaces.
Proof.
  induction all_spaces as [|space rest IH]; intros w; simpl; [reflexivity|].
  destruct (included include_dms include_spaces space).
  - destruct (check_space _ _ _ w) as [r w'].
    specialize (IH w').
    destruct (outcomes include_dms include_spaces rest w') as [l w''].
    simpl in *. now rewrite IH.
  - apply IH.
Qed.

Lemma outcomes_length (include_dms include_spaces : bool) (all_spaces : list Space.t)
  (w : world) :
  len (fst (outcomes include_dms include_spaces all_spaces w))
  = len (filter (included include_dms include_spaces) all_spaces).
Proof.
  unfold len.
  now rewrite <- (outcomes_spaces include_dms include_spaces all_spaces w), length_map.
Qed.

Lemma outcomes_unread (include_dms include_spaces : bool) (all_spaces : list Space.t) :
  forall w,
    Forall (fun summary => 0 < Summary.unread_count summary)
      (collected (fst (outcomes include_dms include_spaces all_spaces w))).
Proof.
  unfold collected.
  induction all_spaces as [|space rest IH]; intros w; simpl; [constructor|].
  destruct (included include_dms include_spaces space); [|apply IH].
  destruct (check_space _ _ _ w) as [r w'] eqn:Hc.
  specialize (IH w').
  destruct (outcomes include_dms include_spaces rest w') as [l w''].
  simpl in *. apply Forall_app. split; [|exact IH].
  unfold summary_of. simpl.
  destruct r as [[summary|]|e]; constructor; [|constructor].
  exact (check_space_unread _ _ _ _ _ _ Hc).
Qed.

Lemma collected_with_unread (l : list (Space.t * result (option Summary.t))) :
  len (collected l) = len (filter with_unread l).
Proof.
  unfold len, collected. f_equal.
  induction l as [|[space r] l IH]; simpl; [reflexivity|].
  rewrite length_app, IH. unfold summary_of, with_unread. simpl.
  destruct r as [[summary|]|e]; reflexivity.
Qed.

Lemma get_unread_conversations_tool_run (include_dms include_spaces : bool)
  (max_results : Z) (w w0 : world) (all_spaces : list Space.t) :
  list_chat_spaces w = (Ok all_spaces, w0) ->
  let found := collected (fst (outcomes include_dms include_spaces all_spaces w0)) in
  let conversations := slice_to max_results (sort_desc Summary.unread_count found) in
  get_unread_conversations_tool include_dms include_spaces max_results w
  = (Ok {| UnreadConversations.total_spaces_scanned :=
             len (filter (included include_dms include_spaces) all_spaces);
           UnreadConversations.conversations_with_unread := len conversations;
           UnreadConversations.conversations := conversations |},
     snd (outcomes include_dms include_spaces all_spaces w0)).
Proof.
  intros H. cbv zeta. unfold get_unread_conversations_tool.
  run H.
  run (scan_run include_dms include_spaces all_spaces (Scan.make [] 0) w0).
  unfold ret. cbn [Scan.conversations_with_unread Scan.total_scanned app].
  now rewrite outcomes_length.
Qed.

(** C3.  [total_spaces_scanned] is the number of spaces that pass the
    filter on direct messages and rooms, whatever the remote calls for
    these spaces do: the body of the scan adds one to the counter for a
    space that passes the filter also when its check raises. *)
Theorem total_spaces_scanned_counts_included
  (include_dms include_spaces : bool) (max_results : Z) (w w0 : world)
  (all_spaces : list Space.t) :
  list_chat_spaces w = (Ok all_spaces, w0) ->
  (exists r w1,
      get_unread_conversations_tool include_dms include_spaces max_results w
      = (Ok r, w1)
      /\ UnreadConversations.total_spaces_scanned r
         = len (filter (included include_dms include_spaces) all_spaces))
  /\ (forall st space wa wb e,
        included include_dms include_spaces space = true ->
        check_space (default "" (Space.name space))
          (default "Unnamed Space" (Space.displayName space))
          (default "SPACE" (Space.spaceType space)) wa = (Raise e, wb) ->
        exists st',
          scan_body include_dms include_spaces st space wa = (Ok st', wb)
          /\ Scan.total_scanned st' = Scan.total_scanned st + 1).
Proof.
  intros H. split.
  - rewrite (get_unread_conversations_tool_run include_dms include_spaces
               max_results w w0 all_spaces H).
    eexists. eexists. split; reflexivity.
  - intros st space wa wb e Hi Hc.
    rewrite (scan_body_run include_dms include_spaces st space wa wb _ Hi Hc).
    eexists. split; reflexivity.
Qed.

(** C4.  When the read-state fetch or the message listing of a space
    that passes the filter raises, the exception is caught: the body of
    the scan leaves the list of summaries as it is, the scan goes on with
    the remaining spaces, and [get_unread_conversations_tool] returns
    whenever the spaces could be listed. *)
Theorem per_space_failure_is_skipped
  (include_dms include_spaces : bool) (st : Scan.t) (space : Space.t)
  (rest : list Space.t) (w w' : world) (e : exn) :
  included include_dms include_spaces space = true ->
  let space_name := default "" (Space.name space) in
  (get_space_read_state space_name w = (Raise e, w')
   \/ exists rs w1,
       get_space_read_state space_name w = (Ok rs, w1)
       /\ list_space_messages space_name false 20 "createTime desc" w1
          = (Raise e, w')) ->
  let st' :=
    Scan.make (Scan.conversations_with_unread st) (Scan.total_scanned st + 1) in
  scan_body include_dms include_spaces st space w = (Ok st', w')
  /\ for_eachM (scan_body include_dms include_spaces) (space :: rest) st w
     = for_eachM (scan_body include_dms include_spaces) rest st' w'
  /\ (forall max_results all_spaces wa wb,
        list_chat_spaces wa = (Ok all_spaces, wb) ->
        exists r wc,
          get_unread_conversations_tool include_dms include_spaces max_results wa
          = (Ok r, wc)).
Proof.
  intros Hi space_name Hf st'.
  assert (Hc : check_space space_name
                 (default "Unnamed Space" (Space.displayName space))
                 (default "SPACE" (Space.spaceType space)) w = (Raise e, w')).
  { destruct Hf as [Hf|(rs & w1 & H1 & H2)].
    - now apply check_space_fetch_fails.
    - now apply (check_space_listing_fails _ _ _ w w1 w' rs). }
  assert (Hb : scan_body include_dms include_spaces st space w = (Ok st', w')).
  { rewrite (scan_body_run include_dms include_spaces st space w w' _ Hi Hc).
    unfold summary_of. simpl. now rewrite app_nil_r. }
  split; [exact Hb|]. split.
  - cbn [for_eachM]. now run Hb.
  - intros max_results all_spaces wa wb H.
    rewrite (get_unread_conversations_tool_run include_dms include_spaces
               max_results wa wb all_spaces H).
    eexists. eexists. reflexivity.
Qed.

(** C5 (amended).  For every cap [max_results] that is not negative,
    [get_unread_conversations_tool] returns [min n max_results]
    conversations, where [n] is the number of spaces that pass the
    filter, were checked without error and have an [unread_count] above
    0; the number of spaces scanned does not depend on the cap. *)
Theorem conversations_length_is_capped
  (include_dms include_spaces : bool) (max_results : Z) (w w0 : world)
  (all_spaces : list Space.t) :
  list_chat_spaces w = (Ok all_spaces, w0) ->
  0 <= max_results ->
  let checked := fst (outcomes include_dms include_spaces all_spaces w0) in
  let n := len (filter with_unread checked) in
  exists r w1,
    get_unread_conversations_tool include_dms include_spaces max_results w
    = (Ok r, w1)
    /\ len (UnreadConversations.conversations r) = Z.min n max_results
    /\ UnreadConversations.total_spaces_scanned r
       = len (filter (included include_dms include_spaces) all_spaces)
    /\ map fst checked = filter (included include_dms include_spaces) all_spaces
    /\ Forall (fun summary => 0 < Summary.unread_count summary) (collected checked).
Proof.
  intros H Hk checked n.
  rewrite (get_unread_conversations_tool_run include_dms include_spaces
             max_results w w0 all_spaces H).
  eexists. eexists. split; [reflexivity|].
  cbn [UnreadConversations.conversations UnreadConversations.total_spaces_scanned].
  split; [|split; [reflexivity|split]].
  - rewrite (slice_to_length _ _ Hk). unfold n.
    rewrite <- collected_with_unread. unfold len.
    now rewrite (Permutation_length (sort_desc_perm Summary.unread_count _)).
  - apply outcomes_spaces.
  - apply outcomes_unread.
Qed.

(** C6.  The conversations that [get_unread_conversations_tool] returns
    are the summaries of the scan sorted by decreasing [unread_count] and
    then cut to the cap: the list is in decreasing order of
    [unread_count], and the summaries of any one [unread_count] in it are
    the first ones of the scan with that count, in scan order. *)
Theorem conversations_sorted_by_unread_count
  (include_dms include_spaces : bool) (max_results : Z) (w w0 : world)
  (all_spaces : list Space.t) :
  list_chat_spaces w = (Ok all_spaces, w0) ->
  let found := collected (fst (outcomes include_dms include_spaces all_spaces w0)) in
  exists r w1,
    get_unread_conversations_tool include_dms include_spaces max_results w
    = (Ok r, w1)
    /\ UnreadConversations.conversations r
       = slice_to max_results (sort_desc Summary.unread_count found)
    /\ Permutation (sort_desc Summary.unread_count found) found
    /\ (forall k, filter (has_count k) (sort_desc Summary.unread_count found)
                  = filter (has_count k) found)
    /\ StronglySorted
         (fun a b => Summary.unread_count b <= Summary.unread_count a)
         (UnreadConversations.conversations r)
    /\ (forall k, starts (filter (has_count k) (UnreadConversations.conversations r))
                    (filter (has_count k) found)).
Proof.
  intros H found.
  rewrite (get_unread_conversations_tool_run include_dms include_spaces
             max_results w w0 all_spaces H).
  eexists. eexists. split; [reflexivity|].
  cbn [UnreadConversations.conversations]. fold found.
  split; [reflexivity|]. split; [apply sort_desc_perm|].
  split; [intros k; apply sort_desc_stable|].
  destruct (slice_to_firstn max_results (sort_desc Summary.unread_count found))
    as [j ->].
  split.
  - apply firstn_sorted, sort_desc_sorted.
  - intros k. unfold has_count.
    rewrite <- (sort_desc_stable Summary.unread_count k found).
    apply firstn_filter_starts.
Qed.

(** ** More properties: the requests of [api/read_state.py] *)

Lemma normalize_space_name_twice (s : string) :
  _normalize_space_name (_normalize_space_name s) = _normalize_space_name s.
Proof.
  unfold _normalize_space_name at 1.
  replace (startswith (_normalize_space_name s) "spaces/") with true; [reflexivity|].
  symmetry. unfold _normalize_space_name.
  destruct (startswith s "spaces/") eqn:E; cbn [negb]; [exact E|].
  apply startswith_app.
Qed.

(** X1.  The three functions that take a space normalize its name before
    the request: called with a bare id or with the full name of the same
    space they do the same in every world. *)
Theorem api_accepts_bare_space_id (s : string) (w : world) :
  get_space_read_state (_normalize_space_name s) w = get_space_read_state s w
  /\ (forall thread_name,
        get_thread_read_state (_normalize_space_name s) thread_name w
        = get_thread_read_state s thread_name w)
  /\ (forall last_read_time,
        update_space_read_state (_normalize_space_name s) last_read_time w
        = update_space_read_state s last_read_time w).
Proof.
  unfold get_space_read_state, get_thread_read_state, update_space_read_state.
  rewrite normalize_space_name_twice. repeat split; reflexivity.
Qed.

Lemma str_append_assoc (a b c : string) : (a ++ b) ++ c = a ++ b ++ c.
Proof. induction a as [|x a IH]; simpl; [reflexivity | now rewrite IH]. Qed.

Lemma wrapped_raise {A : Type} (m : M world A) (prefix : string) (w w' : world)
  (e : exn) :
  try_except m (fun e0 => raise (Exception (prefix ++ str e0))) w = (Raise e, w') ->
  wrapped prefix e.
Proof.
  unfold try_except, raise, wrapped.
  destruct (m w) as [[a|e0] w1]; [discriminate|].
  intros [= <- _]. now exists (str e0).
Qed.

(** X2.  Whatever fails inside one of the four functions of
    [api/read_state.py], the exception that leaves the function is an
    [Exception] whose message starts with the function's own
    ['Failed to ...'] text. *)
Theorem api_errors_are_wrapped (w w' : world) (e : exn) :
  (forall s, get_space_read_state s w = (Raise e, w') ->
             wrapped "Failed to get space read state: " e)
  /\ (forall s t, get_thread_read_state s t w = (Raise e, w') ->
                  wrapped "Failed to get thread read state: " e)
  /\ (forall s t, update_space_read_state s t w = (Raise e, w') ->
                  wrapped "Failed to update space read state: " e)
  /\ (forall user_email,
        find_direct_message_space user_email w = (Raise e, w') ->
        wrapped ("Failed to find DM space with user " ++ user_email ++ ": ") e).
Proof.
  repeat split; intros.
  - eapply wrapped_raise; eassumption.
  - eapply wrapped_raise; eassumption.
  - eapply wrapped_raise; eassumption.
  - unfold find_direct_message_space, try_except, raise, wrapped in *.
    destruct (bind _ _ w) as [[a|e0] w1]; [discriminate|].
    injection H as <- _. exists (str e0).
    now rewrite !str_append_assoc.
Qed.

(** X3.  Without credentials each of the four functions fails with the
    message ['No valid credentials found. Please authenticate first.']
    behind its own prefix, in the world that [get_credentials] left: the
    service is not built and no request is made. *)
Theorem api_without_credentials_makes_no_request (w w1 : world) :
  get_credentials w = (Ok false, w1) ->
  (forall s,
      get_space_read_state s w
      = (Raise (Exception ("Failed to get space read state: "
                           ++ "No valid credentials found. Please authenticate first.")),
         w1))
  /\ (forall s t,
        get_thread_read_state s t w
        = (Raise (Exception ("Failed to get thread read state: "
                             ++ "No valid credentials found. Please authenticate first.")),
           w1))
  /\ (forall s t,
        update_space_read_state s t w
        = (Raise (Exception ("Failed to update space read state: "
                             ++ "No valid credentials found. Please authenticate first.")),
           w1))
  /\ (forall user_email,
        find_direct_message_space user_email w
        = (Raise (Exception ("Failed to find DM space with user " ++ user_email ++ ": "
                             ++ "No valid credentials found. Please authenticate first.")),
           w1)).
Proof.
  intros H.
  unfold get_space_read_state, get_thread_read_state, update_space_read_state,
    find_direct_message_space, try_except.
  repeat split; intros; run H; reflexivity.
Qed.

(** *** The thread of a request *)

Lemma str_split_pieces (c : ascii) (s : string) : str_split c s <> [].
Proof.
  destruct s as [|a s]; simpl; [discriminate|].
  destruct (Ascii.eqb a c); [discriminate|].
  destruct (str_split c s); discriminate.
Qed.

Lemma str_split_app (c : ascii) (p t : string) :
  str_split c (p ++ String c t) = (str_split c p ++ str_split c t)%list.
Proof.
  induction p as [|a p IH]; simpl.
  - now rewrite Ascii.eqb_refl.
  - destruct (Ascii.eqb a c); rewrite IH; [reflexivity|].
    destruct (str_split c p) as [|piece pieces] eqn:E; [|reflexivity].
    now elim (str_split_pieces c p).
Qed.

Lemma last_app_right {A : Type} (l1 l2 : list A) (d : A) :
  l2 <> [] -> last (l1 ++ l2) d = last l2 d.
Proof.
  intros H. induction l1 as [|x l1 IH]; [reflexivity|].
  simpl. rewrite IH. destruct (l1 ++ l2)%list eqn:E; [|reflexivity].
  apply app_eq_nil in E. now destruct E.
Qed.

Lemma last_piece_app (p t : string) : last_piece (p ++ String "/" t) = last_piece t.
Proof.
  unfold last_piece. rewrite str_split_app.
  apply last_app_right, str_split_pieces.
Qed.

(** The name that lines 138-142 build has the last piece of the name
    given. *)
Lemma thread_name_last_piece (space_name thread_name : string) :
  last_piece
    (if negb (startswith thread_name "spaces/") then
       if startswith thread_name "threads/" then space_name ++ "/" ++ thread_name
       else space_name ++ "/threads/" ++ thread_name
     else thread_name)
  = last_piece thread_name.
Proof.
  destruct (startswith thread_name "spaces/"); cbn [negb]; [reflexivity|].
  destruct (startswith thread_name "threads/").
  - apply last_piece_app.
  - change (space_name ++ "/threads/" ++ thread_name)
      with (space_name ++ String "/" ("threads" ++ String "/" thread_name)).
    now rewrite !last_piece_app.
Qed.

(** X4.  [get_thread_read_state] uses of the thread name only its last
    piece after ['/']: a bare thread id, ['threads/{id}'] and a full
    ['spaces/{space}/threads/{id}'], also one that names another space,
    make the same request. *)
Theorem thread_read_state_uses_last_piece
  (space_name thread_name thread_name' : string) (w : world) :
  last_piece thread_name = last_piece thread_name' ->
  get_thread_read_state space_name thread_name w
  = get_thread_read_state space_name thread_name' w.
Proof.
  intros H. unfold get_thread_read_state. cbv zeta.
  fold (last_piece
          (if negb (startswith thread_name "spaces/") then
             if startswith thread_name "threads/"
             then _normalize_space_name space_name ++ "/" ++ thread_name
             else _normalize_space_name space_name ++ "/threads/" ++ thread_name
           else thread_name)).
  fold (last_piece
          (if negb (startswith thread_name' "spaces/") then
             if startswith thread_name' "threads/"
             then _normalize_space_name space_name ++ "/" ++ thread_name'
             else _normalize_space_name space_name ++ "/threads/" ++ thread_name'
           else thread_name')).
  now rewrite !thread_name_last_piece, H.
Qed.

(** ** More properties: the timestamp of [update_space_read_state] *)

Lemma str_length_append (a b : string) :
  String.length (a ++ b) = (String.length a + String.length b)%nat.
Proof. induction a as [|x a IH]; simpl; [reflexivity | now rewrite IH]. Qed.

Lemma substring_append (a b : string) : substring 0 (String.length a) (a ++ b) = a.
Proof. induction a as [|x a IH]; simpl; [now destruct b | now rewrite IH]. Qed.

Lemma str_drop_last_append (a b : string) :
  str_drop_last (String.length b) (a ++ b) = a.
Proof.
  unfold str_drop_last. rewrite str_length_append, Nat.add_sub.
  apply substring_append.
Qed.

Lemma pad_length (n : nat) (v : Z) : String.length (DateTime.pad n v) = n.
Proof. induction n as [|n IH]; simpl; [reflexivity | now rewrite IH]. Qed.

(** The six digits of the microseconds are the three of the milliseconds
    and three more. *)
Lemma pad_microseconds (us : Z) :
  DateTime.pad 6 us = DateTime.pad 3 (us / 1000) ++ DateTime.pad 3 us.
Proof.
  cbn [DateTime.pad append].
  change (10 ^ Z.of_nat 5) with (1000 * 100).
  change (10 ^ Z.of_nat 4) with (1000 * 10).
  change (10 ^ Z.of_nat 3) with (1000 * 1).
  change (10 ^ Z.of_nat 2) with 100.
  change (10 ^ Z.of_nat 1) with 10.
  change (10 ^ Z.of_nat 0) with 1.
  now rewrite <- !Z.div_div by lia.
Qed.

Lemma utc_timestamp_isoformat (now : DateTime.t) :
  utc_timestamp now
  = DateTime.isoformat_ms now (DateTime.microsecond now / 1000) "Z".
Proof.
  unfold utc_timestamp, DateTime.strftime, DateTime.isoformat_ms.
  rewrite pad_microseconds.
  rewrite <- !str_append_assoc.
  rewrite <- (pad_length 3 (DateTime.microsecond now)) at 1.
  rewrite str_drop_last_append.
  rewrite !str_append_assoc. reflexivity.
Qed.

(** X5.  The timestamp that [update_space_read_state] makes of the
    current time, in a year of four digits, has the 24 characters
    [YYYY-MM-DDTHH:MM:SS.mmmZ]: the microseconds are cut to milliseconds,
    not rounded, and the time is marked as UTC. *)
Theorem utc_timestamp_has_milliseconds (now : DateTime.t) :
  1000 <= DateTime.year now <= 9999 ->
  utc_timestamp now
  = DateTime.pad 4 (DateTime.year now) ++ "-" ++ DateTime.pad 2 (DateTime.month now)
    ++ "-" ++ DateTime.pad 2 (DateTime.day now) ++ "T"
    ++ DateTime.pad 2 (DateTime.hour now) ++ ":"
    ++ DateTime.pad 2 (DateTime.minute now) ++ ":"
    ++ DateTime.pad 2 (DateTime.second now) ++ "."
    ++ DateTime.pad 3 (DateTime.microsecond now / 1000) ++ "Z"
  /\ String.length (utc_timestamp now) = 24%nat.
Proof.
  intros _. rewrite utc_timestamp_isoformat. split; reflexivity.
Qed.

(** ** More properties: the unread classification *)

Lemma replace_append (c : ascii) (by_ a b : string) :
  replace c by_ (a ++ b) = replace c by_ a ++ replace c by_ b.
Proof.
  induction a as [|x a IH]; simpl; [reflexivity|].
  destruct (Ascii.eqb x c); rewrite IH; [|reflexivity].
  now rewrite str_append_assoc.
Qed.

(** X7.  A closing ['Z'] and a closing ['+00:00'] are the same to
    [_parse_timestamp], whatever stands before them and whatever
    [fromisoformat] accepts. *)
Theorem parse_timestamp_Z_is_utc_offset (s : string) :
  _parse_timestamp (s ++ "Z") = _parse_timestamp (s ++ "+00:00").
Proof.
  unfold _parse_timestamp.
  replace (truthy_str (s ++ "Z")) with true by (now destruct s).
  replace (truthy_str (s ++ "+00:00")) with true by (now destruct s).
  cbn [negb]. cbv zeta. now rewrite !replace_append.
Qed.

Lemma is_unread_ok_comparable (R : DateTime.t) (m : Message.t) (b : bool) :
  is_unread (Some R) m = Ok b -> comparable R m = true.
Proof.
  unfold is_unread, comparable.
  destruct (Message.createTime m) as [ct|]; [|reflexivity].
  destruct (_parse_timestamp ct) as [c|]; [|reflexivity].
  unfold DateTime.gt, DateTime.aware.
  destruct (DateTime.tzinfo c), (DateTime.tzinfo R); intros H;
    reflexivity || discriminate H.
Qed.

Lemma is_unread_raises (lr : option DateTime.t) (m : Message.t) (e : exn) :
  is_unread lr m = Raise e ->
  e = TypeError "can't compare offset-naive and offset-aware datetimes".
Proof.
  unfold is_unread.
  destruct (Message.createTime m) as [ct|]; [|discriminate].
  destruct (_parse_timestamp ct) as [c|], lr as [l|]; try discriminate.
  unfold DateTime.gt.
  destruct (DateTime.tzinfo c), (DateTime.tzinfo l); try discriminate;
    now intros [= <-].
Qed.

Lemma loop_ok_tests_ok {S : Type} (body : S -> Message.t -> result S)
  (step : S -> Message.t -> S) (lr : option DateTime.t) :
  (forall s m, body s m = rbind (is_unread lr m)
                            (fun b => Ok (if b then step s m else s))) ->
  forall msgs s s',
    for_each body msgs s = Ok s' ->
    Forall (fun m => exists b, is_unread lr m = Ok b) msgs.
Proof.
  intros Hb msgs. induction msgs as [|m msgs IH]; intros s s'; [constructor|].
  simpl. rewrite Hb.
  destruct (is_unread lr m) as [b|e] eqn:E; simpl; [|discriminate].
  intros H. constructor; [now exists b | exact (IH _ _ H)].
Qed.

Lemma loop_raises_type_error {S : Type} (body : S -> Message.t -> result S)
  (step : S -> Message.t -> S) (lr : option DateTime.t) :
  (forall s m, body s m = rbind (is_unread lr m)
                            (fun b => Ok (if b then step s m else s))) ->
  forall msgs s e,
    for_each body msgs s = Raise e ->
    e = TypeError "can't compare offset-naive and offset-aware datetimes".
Proof.
  intros Hb msgs. induction msgs as [|m msgs IH]; intros s e; [discriminate|].
  simpl. rewrite Hb.
  destruct (is_unread lr m) as [b|e0] eqn:E; simpl.
  - apply IH.
  - intros [= <-]. exact (is_unread_raises lr m e0 E).
Qed.

(** X8.  With a last-read time [R], each of the two loops returns exactly
    when every creation time that can be read is of the kind of [R]
    (both naive or both aware); otherwise it raises the [TypeError] of
    the comparison, and nothing else. *)
Theorem classification_returns_iff_comparable (M : list Message.t) (R : DateTime.t) :
  ((exists l, for_each (unread_body (Some R)) M [] = Ok l)
   <-> Forall (fun m => comparable R m = true) M)
  /\ ((exists c, for_each (count_body (Some R)) M (Counters.make 0 None None) = Ok c)
      <-> Forall (fun m => comparable R m = true) M)
  /\ (forall e,
        for_each (unread_body (Some R)) M [] = Raise e
        \/ for_each (count_body (Some R)) M (Counters.make 0 None None) = Raise e ->
        e = TypeError "can't compare offset-naive and offset-aware datetimes").
Proof.
  assert (T : Forall (fun m => exists b, is_unread (Some R) m = Ok b) M ->
              Forall (fun m => comparable R m = true) M).
  { apply Forall_impl. intros m [b H]. exact (is_unread_ok_comparable R m b H). }
  split; [|split].
  - split.
    + intros [l H]. apply T.
      exact (loop_ok_tests_ok _ _ (Some R) (unread_body_spec (Some R)) M [] l H).
    + intros H. eexists. apply (unread_loop_filter R M H).
  - split.
    + intros [c H]. apply T.
      exact (loop_ok_tests_ok _ _ (Some R) (count_body_spec (Some R)) M _ c H).
    + intros H. destruct (count_loop_filter R M H (Counters.make 0 None None))
        as (c & E & _). now exists c.
  - intros e [H|H].
    + exact (loop_raises_type_error _ _ (Some R) (unread_body_spec (Some R)) M _ e H).
    + exact (loop_raises_type_error _ _ (Some R) (count_body_spec (Some R)) M _ e H).
Qed.

Lemma is_unread_createTime (lr : option DateTime.t) (m : Message.t) :
  is_unread lr m = Ok true ->
  exists t, Message.createTime m = Some t /\ truthy_str t = true.
Proof.
  unfold is_unread.
  destruct (Message.createTime m) as [ct|]; [|discriminate].
  intros H. exists ct. split; [reflexivity|].
  destruct (truthy_str ct) eqn:E; [reflexivity|].
  rewrite (parse_timestamp_empty ct E) in H. discriminate H.
Qed.

Lemma loops_agree (lr : option DateTime.t) (M : list Message.t) :
  forall (acc : list Message.t) (c : Counters.t),
    Counters.unread_count c = len acc ->
    Counters.latest_message_time c
    = match acc with
      | [] => None
      | m :: _ => Message.createTime m
      end ->
    Forall (fun m => Message.createTime m <> None) acc ->
    match for_each (unread_body lr) M acc with
    | Ok l =>
        exists c',
          for_each (count_body lr) M c = Ok c'
          /\ Counters.unread_count c' = len l
          /\ Counters.latest_message_time c'
             = match l with
               | [] => None
               | m :: _ => Message.createTime m
               end
    | Raise e => for_each (count_body lr) M c = Raise e
    end.
Proof.
  induction M as [|m M IH]; intros acc c Hn Ht Hs.
  - simpl. exists c. auto.
  - simpl. rewrite unread_body_spec, count_body_spec.
    destruct (is_unread lr m) as [[|]|e] eqn:E; simpl; [| |reflexivity].
    + destruct (is_unread_createTime lr m E) as (t & Hc & _).
      apply IH.
      * unfold count_unread, len in *.
        destruct (Counters.latest_message_time c); simpl;
          rewrite length_app, Hn; simpl; lia.
      * unfold count_unread. destruct acc as [|a acc]; simpl.
        -- now rewrite Ht.
        -- rewrite Ht. inversion Hs as [|? ? Ha _]; subst.
           destruct (Message.createTime a) as [ta|]; [reflexivity | now elim Ha].
      * apply Forall_app. split; [exact Hs|].
        constructor; [|constructor]. now rewrite Hc.
    + now apply IH.
Qed.

(** X9.  On the same messages and last-read time the two tools agree: the
    loop of [get_unread_conversations_tool] counts as many messages as
    the loop of [get_unread_messages_tool] returns and records the
    creation time of the first of them; when one raises, the other raises
    the same exception. *)
Theorem count_agrees_with_unread_messages (lr : option DateTime.t) (M : list Message.t) :
  match for_each (unread_body lr) M [] with
  | Ok l =>
      exists c,
        for_each (count_body lr) M (Counters.make 0 None None) = Ok c
        /\ Counters.unread_count c = len l
        /\ Counters.latest_message_time c
           = match l with
             | [] => None
             | m :: _ => Message.createTime m
             end
  | Raise e => for_each (count_body lr) M (Counters.make 0 None None) = Raise e
  end.
Proof. apply loops_agree; [reflexivity | reflexivity | constructor]. Qed.

Lemma unread_loop_length (lr : option DateTime.t) (M : list Message.t) :
  forall acc l,
    for_each (unread_body lr) M acc = Ok l ->
    (List.length l <= List.length acc + List.length M)%nat.
Proof.
  induction M as [|m M IH]; intros acc l; simpl.
  - intros [= <-]. lia.
  - rewrite unread_body_spec.
    destruct (is_unread lr m) as [[|]|e]; simpl; try discriminate; intros H;
      apply IH in H; rewrite ?length_app in H; simpl in H; lia.
Qed.

(** X10.  In what [get_unread_messages_tool] returns, [has_more] is true
    exactly when the number of unread messages is [max_results]: the test
    on the number of listed messages adds nothing, since the unread
    messages are among the listed ones. *)
Theorem has_more_iff_unread_count_is_max (space_name : string)
  (include_sender_info : bool) (max_results : Z) (w w' : world) (r : UnreadMessages.t) :
  get_unread_messages_tool space_name include_sender_info max_results w = (Ok r, w') ->
  UnreadMessages.has_more r = (UnreadMessages.unread_count r =? max_results)
  /\ UnreadMessages.unread_count r = len (UnreadMessages.messages r).
Proof.
  unfold get_unread_messages_tool, bind, lift, ret. cbv zeta.
  destruct (get_space_read_state _ w) as [[rs|e] w1]; [|discriminate].
  destruct (list_space_messages _ _ _ _ w1) as [[mr|e] w2]; [|discriminate].
  destruct (for_each _ _ _) as [l|e] eqn:E; [|discriminate].
  intros [= <- _]. simpl. split; [|reflexivity].
  apply unread_loop_length in E. simpl in E. unfold len in *.
  destruct (Z.of_nat (List.length l) =? max_results) eqn:Q.
  - apply Z.eqb_eq in Q. rewrite andb_true_r. apply Z.leb_le. lia.
  - apply andb_false_r.
Qed.

(** ** More properties: the scan of the spaces *)

(** X11.  [get_unread_conversations_tool] raises exactly when the spaces
    cannot be listed, with the exception of the listing: no failure for a
    single space leaves the tool. *)
Theorem conversations_tool_raises_iff_listing_fails
  (include_dms include_spaces : bool) (max_results : Z) (w w' : world) (e : exn) :
  get_unread_conversations_tool include_dms include_spaces max_results w
  = (Raise e, w')
  <-> list_chat_spaces w = (Raise e, w').
Proof.
  destruct (list_chat_spaces w) as [[all_spaces|e0] w0] eqn:H.
  - rewrite (get_unread_conversations_tool_run include_dms include_spaces
               max_results w w0 all_spaces H).
    split; discriminate.
  - unfold get_unread_conversations_tool. run H.
    split; intros [= -> ->]; reflexivity.
Qed.

(** X12.  A space that the filter leaves out costs no remote call: the
    scan of a list of spaces is the scan of those that pass the filter. *)
Theorem scan_skips_excluded_spaces
  (include_dms include_spaces : bool) (all_spaces : list Space.t) (st : Scan.t)
  (w : world) :
  for_eachM (scan_body include_dms include_spaces) all_spaces st w
  = for_eachM (scan_body include_dms include_spaces)
      (filter (included include_dms include_spaces) all_spaces) st w.
Proof.
  revert st w. induction all_spaces as [|space rest IH]; intros st w; [reflexivity|].
  cbn [filter].
  destruct (included include_dms include_spaces space) eqn:Hi.
  - cbn [for_eachM]. unfold bind.
    destruct (scan_body include_dms include_spaces st space w) as [[st'|e] w1];
      [apply IH | reflexivity].
  - cbn [for_eachM].
    run (scan_body_skip include_dms include_spaces st space w Hi). apply IH.
Qed.

Lemma included_neither (space : Space.t) : included false false space = false.
Proof. unfold included. now destruct (String.eqb _ _). Qed.

(** X13.  With [include_dms] and [include_spaces] both off the tool lists
    the spaces and does nothing else: no space is scanned, the list of
    conversations is empty, and the world is as the listing left it. *)
Theorem nothing_is_scanned_with_both_filters_off
  (max_results : Z) (w w0 : world) (all_spaces : list Space.t) :
  list_chat_spaces w = (Ok all_spaces, w0) ->
  get_unread_conversations_tool false false max_results w
  = (Ok (UnreadConversations.make 0 0 []), w0).
Proof.
  intros H.
  rewrite (get_unread_conversations_tool_run false false max_results w w0
             all_spaces H).
  assert (E : outcomes false false all_spaces w0 = ([], w0)).
  { clear H. induction all_spaces as [|space rest IH]; [reflexivity|].
    cbn [outcomes]. now rewrite included_neither. }
  rewrite E.
  replace (filter (included false false) all_spaces) with (@nil Space.t).
  - unfold slice_to. cbn [fst snd collected flat_map sort_desc].
    destruct (0 <=? max_results); now rewrite firstn_nil.
  - clear. induction all_spaces as [|space rest IH]; [reflexivity|].
    cbn [filter]. now rewrite included_neither.
Qed.

Lemma count_loop_latest (lr : option DateTime.t) (msgs : list Message.t) :
  forall c c',
    for_each (count_body lr) msgs c = Ok c' ->
    0 <= Counters.unread_count c ->
    (forall t, Counters.latest_message_time c = Some t -> truthy_str t = true) ->
    (0 < Counters.unread_count c -> Counters.latest_message_time c <> None) ->
    0 <= Counters.unread_count c'
    /\ (forall t, Counters.latest_message_time c' = Some t -> truthy_str t = true)
    /\ (0 < Counters.unread_count c' -> Counters.latest_message_time c' <> None).
Proof.
  induction msgs as [|m msgs IH]; intros c c'; simpl.
  - intros [= <-]. auto.
  - rewrite count_body_spec.
    destruct (is_unread lr m) as [[|]|e] eqn:E; simpl; try discriminate.
    + destruct (is_unread_createTime lr m E) as (t' & Hc & Ht').
      intros H H0 Ht Hn. apply (IH _ _ H); unfold count_unread;
        destruct (Counters.latest_message_time c) as [t|] eqn:L; simpl;
        try lia; try discriminate.
      * exact Ht.
      * rewrite Hc. now intros ? [= <-].
      * now rewrite Hc.
    + intros H. now apply IH.
Qed.

Lemma last_read_time_or_epoch_truthy (o : option string) :
  truthy_str (last_read_time_or_epoch o) = true.
Proof.
  unfold last_read_time_or_epoch.
  destruct o as [s|]; [|reflexivity].
  now destruct (truthy_str s) eqn:E.
Qed.

Lemma check_space_summary (space_name display_name space_type : string)
  (w w' : world) (summary : Summary.t) :
  check_space space_name display_name space_type w = (Ok (Some summary), w') ->
  1 <= Summary.unread_count summary
  /\ (exists t, Summary.latest_message_time summary = Some t /\ truthy_str t = true)
  /\ truthy_str (Summary.last_read_time summary) = true
  /\ Summary.space_name summary = space_name
  /\ Summary.space_type summary = space_type
  /\ Summary.display_name summary = display_name.
Proof.
  unfold check_space, bind, lift, ret. cbv zeta.
  destruct (get_space_read_state space_name w) as [[rs|e] w1]; [|discriminate].
  destruct (list_space_messages space_name false 20 "createTime desc" w1)
    as [[mr|e] w2]; [|discriminate].
  destruct (for_each _ _ _) as [c|e] eqn:E; [|discriminate].
  destruct (0 <? Counters.unread_count c) eqn:P; [|discriminate].
  apply Z.ltb_lt in P.
  intros [= <- _]. simpl.
  destruct (count_loop_latest _ _ _ _ E) as (_ & Ht & Hn);
    simpl; try lia; try discriminate.
  split; [lia|]. split.
  - destruct (Counters.latest_message_time c) as [t|] eqn:L.
    + exists t. split; [reflexivity | now apply Ht].
    + now elim (Hn P).
  - split; [apply last_read_time_or_epoch_truthy | auto].
Qed.

Lemma outcomes_well_formed (include_dms include_spaces : bool)
  (all_spaces spaces : list Space.t) :
  (forall space, In space spaces -> In space all_spaces) ->
  forall w,
    Forall (well_formed_summary include_dms include_spaces all_spaces)
      (collected (fst (outcomes include_dms include_spaces spaces w))).
Proof.
  unfold collected.
  induction spaces as [|space rest IH]; intros Hin w; simpl; [constructor|].
  assert (Hrest : forall x, In x rest -> In x all_spaces)
    by (intros x Hx; apply Hin; now right).
  destruct (included include_dms include_spaces space) eqn:Hi; [|now apply IH].
  destruct (check_space _ _ _ w) as [r w'] eqn:Hc.
  specialize (IH Hrest w').
  destruct (outcomes include_dms include_spaces rest w') as [l w''].
  simpl in *. apply Forall_app. split; [|exact IH].
  unfold summary_of. simpl.
  destruct r as [[summary|]|e]; constructor; [|constructor].
  destruct (check_space_summary _ _ _ _ _ _ Hc) as (A & B & C & D & E & F).
  unfold well_formed_summary. repeat split; try assumption.
  exists space. split; [apply Hin; now left | repeat split; auto].
Qed.

(** X14.  Every conversation that [get_unread_conversations_tool] returns
    has at least one unread message, carries the creation time of a
    message and a last-read time that is not empty, and has the name,
    type and display name (with their defaults) of one of the listed
    spaces that pass the filter. *)
Theorem returned_conversations_are_well_formed
  (include_dms include_spaces : bool) (max_results : Z) (w w0 : world)
  (all_spaces : list Space.t) :
  list_chat_spaces w = (Ok all_spaces, w0) ->
  exists r w1,
    get_unread_conversations_tool include_dms include_spaces max_results w
    = (Ok r, w1)
    /\ Forall (well_formed_summary include_dms include_spaces all_spaces)
         (UnreadConversations.conversations r).
Proof.
  intros H.
  rewrite (get_unread_conversations_tool_run include_dms include_spaces
             max_results w w0 all_spaces H).
  eexists. eexists. split; [reflexivity|].
  cbn [UnreadConversations.conversations].
  destruct (slice_to_firstn max_results
              (sort_desc Summary.unread_count
                 (collected (fst (outcomes include_dms include_spaces all_spaces w0)))))
    as [j ->].
  apply firstn_Forall.
  apply (Permutation_Forall (Permutation_sym (sort_desc_perm Summary.unread_count _))).
  now apply outcomes_well_formed.
Qed.

Lemma slice_to_length_any {A : Type} (k : Z) (l : list A) :
  len (slice_to k l) = if 0 <=? k then Z.min (len l) k else Z.max 0 (len l + k).
Proof.
  unfold slice_to, len.
  destruct (0 <=? k) eqn:E; rewrite length_firstn.
  - apply Z.leb_le in E. lia.
  - apply Z.leb_gt in E. lia.
Qed.

(** X15.  For every cap, also a negative one, the tool reports in
    [conversations_with_unread] the length of the list it returns, which
    is at most the number of spaces found with unread messages, which is
    at most [total_spaces_scanned]: after the cut the field no longer
    counts the conversations that have unread messages. *)
Theorem returned_found_scanned
  (include_dms include_spaces : bool) (max_results : Z) (w w0 : world)
  (all_spaces : list Space.t) :
  list_chat_spaces w = (Ok all_spaces, w0) ->
  let n := len (filter with_unread
                  (fst (outcomes include_dms include_spaces all_spaces w0))) in
  exists r w1,
    get_unread_conversations_tool include_dms include_spaces max_results w
    = (Ok r, w1)
    /\ UnreadConversations.conversations_with_unread r
       = len (UnreadConversations.conversations r)
    /\ len (UnreadConversations.conversations r) <= n
    /\ n <= UnreadConversations.total_spaces_scanned r.
Proof.
  intros H n.
  rewrite (get_unread_conversations_tool_run include_dms include_spaces
             max_results w w0 all_spaces H).
  eexists. eexists. split; [reflexivity|].
  cbn [UnreadConversations.conversations UnreadConversations.total_spaces_scanned
       UnreadConversations.conversations_with_unread].
  split; [reflexivity|].
  rewrite slice_to_length_any.
  assert (L : len (sort_desc Summary.unread_count
                     (collected (fst (outcomes include_dms include_spaces
                                        all_spaces w0)))) = n).
  { unfold n. rewrite <- collected_with_unread. unfold len.
    now rewrite (Permutation_length (sort_desc_perm Summary.unread_count _)). }
  rewrite L. split.
  - assert (0 <= n) by (unfold n, len; lia).
    destruct (0 <=? max_results) eqn:E; [lia|].
    apply Z.leb_gt in E. lia.
  - rewrite <- (outcomes_length include_dms include_spaces all_spaces w0).
    unfold n, len. apply inj_le, filter_length_le.
Qed.

(** X16.  With a negative cap the tool does not return an empty list: it
    drops the last [- max_results] conversations of the sorted list and
    returns the other [max 0 (n + max_results)]. *)
Theorem negative_cap_drops_from_the_end
  (include_dms include_spaces : bool) (max_results : Z) (w w0 : world)
  (all_spaces : list Space.t) :
  list_chat_spaces w = (Ok all_spaces, w0) ->
  max_results < 0 ->
  let found := collected (fst (outcomes include_dms include_spaces all_spaces w0)) in
  exists r w1,
    get_unread_conversations_tool include_dms include_spaces max_results w
    = (Ok r, w1)
    /\ UnreadConversations.conversations r
       = firstn (Z.to_nat (len found + max_results))
           (sort_desc Summary.unread_count found)
    /\ len (UnreadConversations.conversations r) = Z.max 0 (len found + max_results).
Proof.
  intros H Hk found.
  rewrite (get_unread_conversations_tool_run include_dms include_spaces
             max_results w w0 all_spaces H).
  eexists. eexists. split; [reflexivity|].
  cbn [UnreadConversations.conversations]. fold found.
  assert (L : len (sort_desc Summary.unread_count found) = len found).
  { unfold len.
    now rewrite (Permutation_length (sort_desc_perm Summary.unread_count found)). }
  split.
  - unfold slice_to. rewrite L.
    replace (0 <=? max_results) with false by (symmetry; apply Z.leb_gt; exact Hk).
    reflexivity.
  - rewrite slice_to_length_any, L.
    replace (0 <=? max_results) with false by (symmetry; apply Z.leb_gt; exact Hk).
    reflexivity.
Qed.

(** X17.  A space with a creation time that cannot be compared with its
    last-read time (one naive, the other aware) makes
    [get_unread_messages_tool] raise [TypeError], while the scan of
    [get_unread_conversations_tool] counts the space, adds no summary and
    goes on. *)
Theorem incomparable_times_raise_or_skip
  (space : Space.t) (include_dms include_spaces include_sender_info : bool)
  (max_results : Z) (w w1 w2 w3 : world) (rs : ReadState.t)
  (mr mr' : MessagesResult.t) (s : string) (R : DateTime.t) (st : Scan.t) :
  let space_name := default "" (Space.name space) in
  included include_dms include_spaces space = true ->
  startswith space_name "spaces/" = true ->
  get_space_read_state space_name w = (Ok rs, w1) ->
  ReadState.lastReadTime rs = Some s ->
  _parse_timestamp s = Some R ->
  list_space_messages space_name false 20 "createTime desc" w1 = (Ok mr, w2) ->
  ~ Forall (fun m => comparable R m = true) (default [] (MessagesResult.messages mr)) ->
  list_space_messages space_name include_sender_info max_results "createTime desc" w1
  = (Ok mr', w3) ->
  ~ Forall (fun m => comparable R m = true) (default [] (MessagesResult.messages mr')) ->
  scan_body include_dms include_spaces st space w
  = (Ok (Scan.make (Scan.conversations_with_unread st) (Scan.total_scanned st + 1)),
     w2)
  /\ get_unread_messages_tool space_name include_sender_info max_results w
     = (Raise (TypeError "can't compare offset-naive and offset-aware datetimes"), w3).
Proof.
  intros space_name Hi Hp H1 Hs HR H2 Hn H2' Hn'.
  assert (Ht : truthy_str s = true).
  { destruct (truthy_str s) eqn:E; [reflexivity|].
    rewrite (parse_timestamp_empty s E) in HR. discriminate HR. }
  assert (Hlr : _parse_timestamp (last_read_time_or_epoch (ReadState.lastReadTime rs))
                = Some R).
  { now rewrite Hs, (last_read_time_present s Ht). }
  split.
  - assert (Hc : check_space space_name
                   (default "Unnamed Space" (Space.displayName space))
                   (default "SPACE" (Space.spaceType space)) w
                 = (Raise (TypeError
                             "can't compare offset-naive and offset-aware datetimes"),
                    w2)).
    { unfold check_space. cbv zeta. run H1. run H2. unfold bind, lift. rewrite Hlr.
      destruct (for_each (count_body (Some R)) _ _) as [c|e] eqn:E.
      - elim Hn.
        eapply Forall_impl;
          [|exact (loop_ok_tests_ok _ _ (Some R) (count_body_spec (Some R)) _ _ c E)].
        intros m [b Hb]. exact (is_unread_ok_comparable R m b Hb).
      - now rewrite (loop_raises_type_error _ _ (Some R)
                       (count_body_spec (Some R)) _ _ e E). }
    rewrite (scan_body_run include_dms include_spaces st space w w2 _ Hi Hc).
    unfold summary_of. simpl. now rewrite app_nil_r.
  - unfold get_unread_messages_tool. cbv zeta. rewrite Hp. cbn [negb].
    run H1. run H2'. unfold bind, lift. rewrite Hlr.
    destruct (for_each (unread_body (Some R)) _ _) as [l|e] eqn:E.
    + elim Hn'.
      eapply Forall_impl;
        [|exact (loop_ok_tests_ok _ _ (Some R) (unread_body_spec (Some R)) _ _ l E)].
      intros m [b Hb]. exact (is_unread_ok_comparable R m b Hb).
    + now rewrite (loop_raises_type_error _ _ (Some R)
                     (unread_body_spec (Some R)) _ _ e E).
Qed.

(** ** More properties: [get_space_read_state_tool] and
    [mark_space_as_read_tool] *)

Lemma format_elapsed_age (us : Z) :
  format_elapsed (DateTime.timedelta_of us) = age_in_words us.
Proof.
  unfold format_elapsed, age_in_words, DateTime.timedelta_of.
  cbn [DateTime.days DateTime.seconds].
  destruct (us / 86400000000 =? 0) eqn:D0.
  - apply Z.eqb_eq in D0.
    assert (B : 0 <= us < 86400000000).
    { pose proof (Z.div_mod us 86400000000 ltac:(lia)) as E.
      pose proof (Z.mod_pos_bound us 86400000000 ltac:(lia)). lia. }
    rewrite (Z.mod_small us 86400000000 B).
    rewrite !Z.div_div by lia.
    change (1000000 * 3600) with 3600000000.
    change (1000000 * 60) with 60000000.
    replace (0 <=? us) with true by (symmetry; apply Z.leb_le; lia).
    cbn [andb].
    destruct (us / 3600000000 =? 0) eqn:H0.
    + apply Z.eqb_eq in H0.
      assert (us < 3600000000).
      { pose proof (Z.div_mod us 3600000000 ltac:(lia)) as E.
        pose proof (Z.mod_pos_bound us 3600000000 ltac:(lia)). lia. }
      now replace (us <? 3600000000) with true by (symmetry; apply Z.ltb_lt; lia).
    + apply Z.eqb_neq in H0.
      assert (3600000000 <= us).
      { destruct (Z_lt_le_dec us 3600000000) as [L|L]; [|exact L].
        elim H0. apply Z.div_small. lia. }
      replace (us <? 3600000000) with false by (symmetry; apply Z.ltb_ge; lia).
      replace (3600000000 <=? us) with true by (symmetry; apply Z.leb_le; lia).
      now replace (us <? 86400000000) with true by (symmetry; apply Z.ltb_lt; lia).
  - apply Z.eqb_neq in D0.
    assert (B : us < 0 \/ 86400000000 <= us).
    { destruct (Z_lt_le_dec us 0) as [L|L]; [now left|].
      destruct (Z_lt_le_dec us 86400000000) as [L'|L']; [|now right].
      elim D0. apply Z.div_small. lia. }
    replace ((0 <=? us) && (us <? 3600000000)) with false
      by (symmetry; apply andb_false_iff;
          destruct B; [left; apply Z.leb_gt | right; apply Z.ltb_ge]; lia).
    replace ((3600000000 <=? us) && (us <? 86400000000)) with false
      by (symmetry; apply andb_false_iff;
          destruct B; [left; apply Z.leb_gt | right; apply Z.ltb_ge]; lia).
    destruct (us / 86400000000 =? 1) eqn:D1.
    + apply Z.eqb_eq in D1.
      pose proof (Z.div_mod us 86400000000 ltac:(lia)) as E.
      pose proof (Z.mod_pos_bound us 86400000000 ltac:(lia)).
      replace (86400000000 <=? us) with true by (symmetry; apply Z.leb_le; lia).
      now replace (us <? 172800000000) with true by (symmetry; apply Z.ltb_lt; lia).
    + apply Z.eqb_neq in D1.
      replace ((86400000000 <=? us) && (us <? 172800000000)) with false;
        [reflexivity|].
      symmetry. apply andb_false_iff.
      destruct (Z_lt_le_dec us 86400000000) as [L|L];
        [left; apply Z.leb_gt; lia|].
      right. apply Z.ltb_ge.
      destruct (Z_lt_le_dec us 172800000000) as [L'|L']; [|exact L'].
      elim D1. symmetry. apply (Z.div_unique us 86400000000 1 (us - 86400000000)); lia.
Qed.

Lemma get_space_read_state_tool_run (space_name : string) (w w1 : world)
  (rs : ReadState.t) :
  get_space_read_state (_normalize_space_name space_name) w = (Ok rs, w1) ->
  forall formatted w2,
    (let last_read_time := default "" (ReadState.lastReadTime rs) in
     if truthy_str last_read_time then
       try_except
         (match _parse_timestamp last_read_time with
          | Some dt =>
              now <- datetime_now_utc ;;
              diff <- lift (DateTime.sub now dt) ;;
              ret (format_elapsed diff)
          | None => ret "Never read"
          end)
         (fun _ => ret last_read_time)
     else ret "Never read") w1 = (Ok formatted, w2) ->
    get_space_read_state_tool space_name w
    = (Ok {| ReadStateInfo.name := ReadState.name rs;
             ReadStateInfo.space_name := _normalize_space_name space_name;
             ReadStateInfo.last_read_time := default "" (ReadState.lastReadTime rs);
             ReadStateInfo.formatted_last_read := formatted |}, w2).
Proof.
  intros H1 formatted w2 H2.
  unfold get_space_read_state_tool.
  change (if negb (startswith space_name "spaces/")
          then "spaces/" ++ space_name else space_name)
    with (_normalize_space_name space_name).
  cbv zeta in *. run H1. run H2. reflexivity.
Qed.

(** X18.  [get_space_read_state_tool] says ['Never read'] without reading
    the clock when [lastReadTime] is missing, empty or cannot be parsed
    (the field [last_read_time] still shows the string), and it gives the
    string itself as [formatted_last_read] when it parses to a naive
    time: the subtraction from the aware current time raises and the
    exception is caught. *)
Theorem formatted_last_read_without_age (space_name : string) (w w1 : world)
  (rs : ReadState.t) :
  get_space_read_state (_normalize_space_name space_name) w = (Ok rs, w1) ->
  ((forall t, ReadState.lastReadTime rs = Some t -> _parse_timestamp t = None) ->
   get_space_read_state_tool space_name w
   = (Ok {| ReadStateInfo.name := ReadState.name rs;
            ReadStateInfo.space_name := _normalize_space_name space_name;
            ReadStateInfo.last_read_time := default "" (ReadState.lastReadTime rs);
            ReadStateInfo.formatted_last_read := "Never read" |}, w1))
  /\ (forall t dt d w2,
        ReadState.lastReadTime rs = Some t ->
        _parse_timestamp t = Some dt ->
        DateTime.tzinfo dt = None ->
        clock w1 = (d, w2) ->
        get_space_read_state_tool space_name w
        = (Ok {| ReadStateInfo.name := ReadState.name rs;
                 ReadStateInfo.space_name := _normalize_space_name space_name;
                 ReadStateInfo.last_read_time := t;
                 ReadStateInfo.formatted_last_read := t |}, w2)).
Proof.
  intros H1. split.
  - intros Hn. apply (get_space_read_state_tool_run space_name w w1 rs H1).
    cbv zeta. destruct (ReadState.lastReadTime rs) as [t|]; [|reflexivity].
    cbn [default]. destruct (truthy_str t); [|reflexivity].
    unfold try_except. now rewrite (Hn t eq_refl).
  - intros t dt d w2 Hs Hp Hz Hc.
    assert (Ht : truthy_str t = true).
    { destruct (truthy_str t) eqn:E; [reflexivity|].
      rewrite (parse_timestamp_empty t E) in Hp. discriminate Hp. }
    replace t with (default "" (ReadState.lastReadTime rs)) at 1 by now rewrite Hs.
    apply (get_space_read_state_tool_run space_name w w1 rs H1).
    cbv zeta. rewrite Hs. cbn [default]. rewrite Ht, Hp.
    unfold try_except, bind, datetime_now_utc, lift, ret. rewrite Hc.
    unfold DateTime.sub. rewrite Hz. reflexivity.
Qed.

(** X19.  For a [lastReadTime] that parses to an aware time,
    [formatted_last_read] depends on the time [us] from it to the clock
    only: minutes below one hour, hours below one day, ['Yesterday'] from
    one day on, days from two days on, all rounded down; a last-read time
    ahead of the clock gives a negative number of days. *)
Theorem formatted_last_read_is_the_age (space_name : string) (w w1 w2 : world)
  (rs : ReadState.t) (t : string) (dt d : DateTime.t) (off : Z) :
  get_space_read_state (_normalize_space_name space_name) w = (Ok rs, w1) ->
  ReadState.lastReadTime rs = Some t ->
  _parse_timestamp t = Some dt ->
  DateTime.tzinfo dt = Some off ->
  clock w1 = (d, w2) ->
  get_space_read_state_tool space_name w
  = (Ok {| ReadStateInfo.name := ReadState.name rs;
           ReadStateInfo.space_name := _normalize_space_name space_name;
           ReadStateInfo.last_read_time := t;
           ReadStateInfo.formatted_last_read :=
             age_in_words (DateTime.wall d - (DateTime.wall dt - off)) |}, w2).
Proof.
  intros H1 Hs Hp Hz Hc.
  assert (Ht : truthy_str t = true).
  { destruct (truthy_str t) eqn:E; [reflexivity|].
    rewrite (parse_timestamp_empty t E) in Hp. discriminate Hp. }
  replace t with (default "" (ReadState.lastReadTime rs)) at 1 by now rewrite Hs.
  apply (get_space_read_state_tool_run space_name w w1 rs H1).
  cbv zeta. rewrite Hs. cbn [default]. rewrite Ht, Hp.
  unfold try_except, bind, datetime_now_utc, lift, ret. rewrite Hc.
  unfold DateTime.sub. rewrite Hz. cbn [DateTime.utc DateTime.tzinfo].
  rewrite format_elapsed_age. do 3 f_equal.
  unfold DateTime.wall, DateTime.toordinal. cbn. lia.
Qed.

(** X20.  [mark_space_as_read_tool] sends one update for
    ['users/me/{space}/spaceReadState'] with the mask ['lastReadTime'] and
    the timestamp of its own clock, read after the credentials; it
    reports the [lastReadTime] that the service answers, with
    [success = True].  [update_space_read_state] with a timestamp sends
    that timestamp as it is and does not read the clock. *)
Theorem mark_space_as_read_sends_the_clock (space_name : string)
  (w w1 w2 w3 w4 : world) (svc : service) (d : DateTime.t) :
  get_credentials w = (Ok true, w1) ->
  build "chat" "v1" w1 = (Ok svc, w2) ->
  get_credentials w2 = (Ok true, w3) ->
  clock w3 = (d, w4) ->
  let resource_name :=
    "users/me/" ++ _normalize_space_name space_name ++ "/spaceReadState" in
  mark_space_as_read_tool space_name w
  = match updateSpaceReadState svc resource_name "lastReadTime"
            (ReadState.make None (Some (utc_timestamp (DateTime.utc d)))) w4 with
    | (Ok rs, w5) =>
        (Ok (MarkedRead.make (_normalize_space_name space_name)
               (ReadState.lastReadTime rs) true), w5)
    | (Raise e, w5) =>
        (Raise (Exception ("Failed to update space read state: " ++ str e)), w5)
    end
  /\ forall t,
      update_space_read_state space_name (Some t) w
      = match updateSpaceReadState svc resource_name "lastReadTime"
                (ReadState.make None (Some t)) w3 with
        | (Ok rs, w5) => (Ok rs, w5)
        | (Raise e, w5) =>
            (Raise (Exception ("Failed to update space read state: " ++ str e)), w5)
        end.
Proof.
  intros Hc1 Hb Hc2 Hk resource_name. split.
  - unfold mark_space_as_read_tool.
    change (if negb (startswith space_name "spaces/")
            then "spaces/" ++ space_name else space_name)
      with (_normalize_space_name space_name).
    cbv zeta. unfold bind at 1, update_space_read_state, try_except.
    rewrite normalize_space_name_twice.
    run Hc1. cbn [negb]. run Hb. cbv zeta.
    unfold _get_user_id_from_credentials. unfold bind at 1 2. rewrite Hc2.
    cbn [negb]. unfold ret at 1. unfold bind at 1 2, datetime_now_utc. rewrite Hk.
    unfold ret at 1. unfold bind, ret, raise.
    fold resource_name.
    destruct (updateSpaceReadState svc _ _ _ w4) as [[rs|e] w5]; reflexivity.
  - intros t. unfold update_space_read_state, try_except.
    run Hc1. cbn [negb]. run Hb. cbv zeta.
    unfold _get_user_id_from_credentials. unfold bind at 1 2. rewrite Hc2.
    cbn [negb]. unfold ret at 1. unfold bind, ret, raise.
    fold resource_name.
    destruct (updateSpaceReadState svc _ _ _ w3) as [[rs|e] w5]; reflexivity.
Qed.

End Program.

Arguments get_space_read_state {world} get_credentials {service} build
  getSpaceReadState space_name _.
Arguments get_unread_messages_tool fromisoformat {world} get_credentials {service}
  build getSpaceReadState list_space_messages space_name include_sender_info
  max_results _.
Arguments check_space fromisoformat {world} get_credentials {service} build
  getSpaceReadState list_space_messages space_name display_name space_type _.
Arguments scan_body fromisoformat {world} get_credentials {service} build
  getSpaceReadState list_space_messages include_dms include_spaces st space _.
Arguments outcomes fromisoformat {world} get_credentials {service} build
  getSpaceReadState list_space_messages include_dms include_spaces all_spaces w.
Arguments get_unread_conversations_tool fromisoformat {world} get_credentials
  {service} build getSpaceReadState list_chat_spaces list_space_messages
  include_dms include_spaces max_results _.

Arguments get_thread_read_state {world} get_credentials {service} build
  getThreadReadState space_name thread_name _.
Arguments update_space_read_state {world} get_credentials {service} build
  updateSpaceReadState clock space_name last_read_time _.
Arguments find_direct_message_space {world} get_credentials {service} build
  findDirectMessage user_email _.
Arguments mark_space_as_read_tool {world} get_credentials {service} build
  updateSpaceReadState clock space_name _.
Arguments get_space_read_state_tool fromisoformat {world} get_credentials {service}
  build getSpaceReadState clock space_name _.

(** ** The timestamp of an update is read back *)

Lemma digit_of_digit_char (d : Z) :
  0 <= d < 10 -> DateTime.digit (DateTime.digit_char d) = Some d.
Proof.
  intros H.
  assert (E : d = 0 \/ d = 1 \/ d = 2 \/ d = 3 \/ d = 4 \/ d = 5 \/ d = 6
              \/ d = 7 \/ d = 8 \/ d = 9) by lia.
  repeat (destruct E as [->|E]; [reflexivity|]). now subst.
Qed.

Lemma digit_char_is_not_Z (d : Z) :
  0 <= d < 10 -> Ascii.eqb (DateTime.digit_char d) "Z" = false.
Proof.
  intros H.
  assert (E : d = 0 \/ d = 1 \/ d = 2 \/ d = 3 \/ d = 4 \/ d = 5 \/ d = 6
              \/ d = 7 \/ d = 8 \/ d = 9) by lia.
  repeat (destruct E as [->|E]; [reflexivity|]). now subst.
Qed.

Lemma number_pad (n : nat) (v : Z) (rest : string) :
  forall acc,
    DateTime.number n acc (DateTime.pad n v ++ rest)
    = Some (acc * 10 ^ Z.of_nat n + v mod 10 ^ Z.of_nat n, rest).
Proof.
  induction n as [|n IH]; intros acc.
  - cbn [DateTime.number DateTime.pad append]. f_equal. f_equal.
    change (10 ^ Z.of_nat 0) with 1. rewrite Z.mod_1_r. lia.
  - cbn [DateTime.number DateTime.pad append].
    rewrite digit_of_digit_char by (apply Z.mod_pos_bound; lia).
    cbn [DateTime.obind]. rewrite IH. f_equal. f_equal.
    rewrite Nat2Z.inj_succ, Z.pow_succ_r by lia.
    assert (P : 0 < 10 ^ Z.of_nat n) by (apply Z.pow_pos_nonneg; lia).
    rewrite (Z.mul_comm 10 (10 ^ Z.of_nat n)).
    rewrite (Z.rem_mul_r v (10 ^ Z.of_nat n) 10) by lia.
    ring.
Qed.

Lemma number_pad_small (n : nat) (v : Z) (rest : string) :
  0 <= v < 10 ^ Z.of_nat n ->
  DateTime.number n 0 (DateTime.pad n v ++ rest) = Some (v, rest).
Proof.
  intros H. rewrite number_pad, Z.mod_small by exact H. reflexivity.
Qed.

Lemma number_app (n m : nat) (s : string) :
  forall acc,
    DateTime.number (n + m) acc s
    = DateTime.obind (DateTime.number n acc s)
        (fun '(a, r) => DateTime.number m a r).
Proof.
  revert s. induction n as [|n IH]; intros s acc; [reflexivity|].
  cbn [Nat.add DateTime.number].
  destruct s as [|c s]; [reflexivity|].
  destruct (DateTime.digit c) as [d|]; [|reflexivity].
  cbn [DateTime.obind]. apply IH.
Qed.

Lemma replace_pad (n : nat) (v : Z) (by_ : string) :
  replace "Z" by_ (DateTime.pad n v) = DateTime.pad n v.
Proof.
  induction n as [|n IH]; [reflexivity|].
  cbn [DateTime.pad replace].
  rewrite digit_char_is_not_Z by (apply Z.mod_pos_bound; lia).
  now rewrite IH.
Qed.

Lemma replace_isoformat_ms (d : DateTime.t) (ms : Z) :
  replace "Z" "+00:00" (DateTime.isoformat_ms d ms "Z")
  = DateTime.isoformat_ms d ms "+00:00".
Proof.
  unfold DateTime.isoformat_ms.
  repeat (rewrite replace_append, replace_pad;
          try (cbn [replace]; change (Ascii.eqb ?x "Z") with false; cbv iota)).
  reflexivity.
Qed.

(** One step of the parser on a text whose first character is known. *)
Ltac eat :=
  cbn [DateTime.obind DateTime.expect];
  repeat match goal with
         | |- context [Ascii.eqb ?a ?b] =>
             let r := eval vm_compute in (Ascii.eqb a b) in
             change (Ascii.eqb a b) with r
         end;
  cbn [orb]; cbv iota; cbn [DateTime.obind].

Lemma isoparse_isoformat_ms (d : DateTime.t) (ms : Z) :
  DateTime.valid d = true -> 0 <= ms < 1000 ->
  DateTime.isoparse (DateTime.isoformat_ms d ms "+00:00")
  = Some (DateTime.make (DateTime.year d) (DateTime.month d) (DateTime.day d)
            (DateTime.hour d) (DateTime.minute d) (DateTime.second d) (ms * 1000)
            (Some 0)).
Proof.
  unfold DateTime.valid. intros V Hms.
  repeat (apply andb_prop in V; destruct V as [V ?]).
  repeat match goal with
         | H : (_ <=? _) = true |- _ => apply Z.leb_le in H
         end.
  assert (Hd : DateTime.day d <= 31).
  { unfold DateTime.days_in_month in *.
    repeat match goal with
           | H : context [if ?b then _ else _] |- _ => destruct b
           end; lia. }
  unfold DateTime.isoparse, DateTime.isoformat_ms.
  repeat (rewrite number_pad_small
            by (first [ change (10 ^ Z.of_nat 4) with 10000
                      | change (10 ^ Z.of_nat 2) with 100 ]; lia);
          eat).
  cbn [DateTime.fraction]. change 6%nat with (3 + 3)%nat.
  rewrite (number_app 3 3), !number_pad_small
    by (change (10 ^ Z.of_nat 3) with 1000; lia).
  cbn [DateTime.obind].
  change (DateTime.number 3 ms "+00:00") with (@None (Z * string)). cbv iota.
  cbn [DateTime.obind].
  change (DateTime.offset "+00:00") with (Some (Some 0)).
  cbn [DateTime.obind].
  repeat match goal with
         | H : ?a <= ?b |- context [?a <=? ?b] =>
             rewrite (proj2 (Z.leb_le a b) H)
         end.
  reflexivity.
Qed.

(** X6.  The timestamp that [update_space_read_state] makes of the
    current time, in a year of four digits, is read back by
    [_parse_timestamp]: as the aware time of offset 0 with the same date
    and time of day, the microseconds cut to whole milliseconds. *)
Theorem utc_timestamp_is_read_back (now : DateTime.t) :
  DateTime.valid now = true ->
  1000 <= DateTime.year now ->
  _parse_timestamp DateTime.isoparse (utc_timestamp now)
  = Some (DateTime.make (DateTime.year now) (DateTime.month now) (DateTime.day now)
            (DateTime.hour now) (DateTime.minute now) (DateTime.second now)
            (DateTime.microsecond now / 1000 * 1000) (Some 0)).
Proof.
  intros V _.
  assert (Hus : 0 <= DateTime.microsecond now / 1000 < 1000).
  { unfold DateTime.valid in V.
    repeat (apply andb_prop in V; destruct V as [V ?]).
    repeat match goal with
           | H : (_ <=? _) = true |- _ => apply Z.leb_le in H
           end.
    split; [apply Z.div_pos; lia | apply Z.div_lt_upper_bound; lia]. }
  unfold _parse_timestamp.
  rewrite utc_timestamp_isoformat.
  replace (truthy_str (DateTime.isoformat_ms now (DateTime.microsecond now / 1000) "Z"))
    with true by reflexivity.
  cbn [negb]. cbv zeta.
  rewrite replace_isoformat_ms.
  now apply isoparse_isoformat_ms.
Qed.

(** ** The properties in the example world *)

Local Abbreviation demo_read_state :=
  (get_space_read_state Demo.get_credentials Demo.build Demo.getSpaceReadState).
Local Abbreviation demo_messages :=
  (get_unread_messages_tool DateTime.isoparse Demo.get_credentials Demo.build
     Demo.getSpaceReadState Demo.list_space_messages).
Local Abbreviation demo_check_space :=
  (check_space DateTime.isoparse Demo.get_credentials Demo.build
     Demo.getSpaceReadState Demo.list_space_messages).
Local Abbreviation demo_scan_body :=
  (scan_body DateTime.isoparse Demo.get_credentials Demo.build
     Demo.getSpaceReadState Demo.list_space_messages).
Local Abbreviation demo_outcomes :=
  (outcomes DateTime.isoparse Demo.get_credentials Demo.build
     Demo.getSpaceReadState Demo.list_space_messages).
Local Abbreviation demo_conversations :=
  (get_unread_conversations_tool DateTime.isoparse Demo.get_credentials Demo.build
     Demo.getSpaceReadState Demo.list_chat_spaces Demo.list_space_messages).
Local Abbreviation naive_against_aware :=
  (TypeError "can't compare offset-naive and offset-aware datetimes").

(** The example of the specification: read up to 09:55, the messages of
    10:05 and 10:00 are unread and the one of 09:50 is not. *)
Lemma unread_classification_filters_later_messages_witness :
  Forall (fun m => comparable DateTime.isoparse Demo.read_0955 m = true)
    Demo.team_messages
  /\ filter (created_after DateTime.isoparse Demo.read_0955) Demo.team_messages
     = firstn 2 Demo.team_messages
  /\ for_each (unread_body DateTime.isoparse (Some Demo.read_0955))
       Demo.team_messages []
     = Ok (filter (created_after DateTime.isoparse Demo.read_0955) Demo.team_messages).
Proof.
  assert (H : Forall (fun m => comparable DateTime.isoparse Demo.read_0955 m = true)
                Demo.team_messages) by (repeat constructor).
  split; [exact H|]. split; [reflexivity|].
  exact (proj1 (unread_classification_filters_later_messages DateTime.isoparse
                  Demo.team_messages Demo.read_0955 H)).
Defined.

(** C1 does not hold for every list and every last-read time: a creation
    time without a UTC offset is read as a naive time, comparing it with
    the aware last-read time raises [TypeError], and
    [get_unread_messages_tool] raises instead of returning the later
    messages. *)
Lemma unread_classification_raises_on_naive_createTime :
  _parse_timestamp DateTime.isoparse "2024-01-01T09:55:00.000Z" = Some Demo.read_0955
  /\ for_each (unread_body DateTime.isoparse (Some Demo.read_0955))
       Demo.local_messages []
     = Raise naive_against_aware
  /\ for_each (unread_body DateTime.isoparse (Some Demo.read_0955))
       Demo.local_messages []
     <> Ok (filter (created_after DateTime.isoparse Demo.read_0955)
              Demo.local_messages)
  /\ demo_messages "spaces/G" true 50 Demo.w0 = (Raise naive_against_aware, Demo.w0).
Proof.
  split; [reflexivity|]. split; [reflexivity|]. split; [discriminate|].
  vm_compute. reflexivity.
Qed.

Lemma absent_last_read_time_all_unread_witness :
  truthy None = false
  /\ DateTime.isoparse "1970-01-01T00:00:00.000+00:00" = Some DateTime.epoch
  /\ Forall (fun m => aware_after DateTime.isoparse DateTime.epoch m = true)
       Demo.bob_messages
  /\ for_each
       (unread_body DateTime.isoparse
          (_parse_timestamp DateTime.isoparse (last_read_time_or_epoch None)))
       Demo.bob_messages []
     = Ok Demo.bob_messages.
Proof.
  assert (H : Forall
                (fun m => aware_after DateTime.isoparse DateTime.epoch m = true)
                Demo.bob_messages) by (repeat constructor).
  split; [reflexivity|]. split; [reflexivity|]. split; [exact H|].
  exact (proj1 (proj2 (absent_last_read_time_all_unread DateTime.isoparse
                         Demo.bob_messages None eq_refl eq_refl H))).
Defined.

(** C2 does not hold for every list whose creation times parse: the
    creation time of a message from 1969 parses, but it is not later than
    the epoch that stands in for the missing [lastReadTime], so the message
    is not unread. *)
Lemma absent_last_read_time_drops_message_before_epoch :
  Forall (fun m => exists s c,
              Message.createTime m = Some s
              /\ _parse_timestamp DateTime.isoparse s = Some c)
    Demo.old_messages
  /\ for_each
       (unread_body DateTime.isoparse
          (_parse_timestamp DateTime.isoparse (last_read_time_or_epoch None)))
       Demo.old_messages []
     = Ok []
  /\ for_each
       (unread_body DateTime.isoparse
          (_parse_timestamp DateTime.isoparse (last_read_time_or_epoch None)))
       Demo.old_messages []
     <> Ok Demo.old_messages
  /\ exists r,
      demo_messages "spaces/J" true 50 Demo.w0 = (Ok r, Demo.w0)
      /\ UnreadMessages.last_read_time r = "1970-01-01T00:00:00.000Z"
      /\ UnreadMessages.messages r = [].
Proof.
  split; [|split; [reflexivity|split; [discriminate|]]].
  - constructor; [|constructor]. eexists. eexists. split; reflexivity.
  - eexists. split; [vm_compute; reflexivity|]. split; reflexivity.
Qed.

Lemma unparsable_createTime_is_skipped_witness :
  Message.createTime Demo.odd_message = Some "yesterday at noon"
  /\ _parse_timestamp DateTime.isoparse "yesterday at noon" = None
  /\ for_each (unread_body DateTime.isoparse (Some Demo.read_0800)) Demo.bot_messages []
     = for_each (unread_body DateTime.isoparse (Some Demo.read_0800))
         (firstn 1 Demo.bot_messages ++ skipn 2 Demo.bot_messages)%list []
  /\ for_each (unread_body DateTime.isoparse (Some Demo.read_0800)) Demo.bot_messages []
     = Ok (firstn 1 Demo.bot_messages ++ skipn 2 Demo.bot_messages)%list.
Proof.
  split; [reflexivity|]. split; [reflexivity|]. split; [|reflexivity].
  exact (proj1 (proj2 (proj2
           (unparsable_createTime_is_skipped DateTime.isoparse Demo.world
              Demo.get_credentials unit Demo.build Demo.getSpaceReadState
              Demo.list_space_messages
              (firstn 1 Demo.bot_messages) (skipn 2 Demo.bot_messages)
              Demo.odd_message "yesterday at noon" eq_refl eq_refl)))
           (Some Demo.read_0800) []).
Defined.

Lemma unparsable_lastReadTime_reports_no_unread_witness :
  truthy_str "last tuesday" = true
  /\ _parse_timestamp DateTime.isoparse "last tuesday" = None
  /\ (exists r,
        demo_messages "F" true 50 Demo.w0 = (Ok r, Demo.w0)
        /\ UnreadMessages.unread_count r = 0
        /\ UnreadMessages.messages r = []
        /\ UnreadMessages.last_read_time r = "last tuesday")
  /\ demo_check_space "spaces/F" "Unnamed Space" "SPACE" Demo.w0 = (Ok None, Demo.w0).
Proof.
  split; [reflexivity|]. split; [reflexivity|].
  destruct (unparsable_lastReadTime_reports_no_unread DateTime.isoparse
              Demo.world Demo.get_credentials unit Demo.build Demo.getSpaceReadState
              Demo.list_space_messages "F" "Unnamed Space" "SPACE" true 50
              "last tuesday" eq_refl eq_refl) as [A _].
  destruct (unparsable_lastReadTime_reports_no_unread DateTime.isoparse
              Demo.world Demo.get_credentials unit Demo.build Demo.getSpaceReadState
              Demo.list_space_messages "spaces/F" "Unnamed Space" "SPACE" true 50
              "last tuesday" eq_refl eq_refl) as [_ B].
  split.
  - exact (A Demo.w0 Demo.w0 Demo.w0 _ _ eq_refl eq_refl eq_refl).
  - exact (B Demo.w0 Demo.w0 Demo.w0 _ _ eq_refl eq_refl eq_refl).
Defined.

(** The preview of a long first unread message: its first 100 characters
    and the ellipsis.  Outside ASCII the characters are counted, not the
    units of an encoding: sixty times U+00E9 is returned whole, and of
    101 times U+4E2D the first 100 are kept. *)
Lemma preview_of_first_unread_message_witness :
  (exists summary,
     demo_check_space "spaces/E" "Ops" "SPACE" Demo.w0 = (Ok (Some summary), Demo.w0)
     /\ Summary.latest_message_time summary = Some "2024-01-03T12:00:00.123456Z"
     /\ Summary.preview summary = Some (preview_text (unicode_of Demo.long_text))
     /\ preview_text (unicode_of Demo.long_text)
        = (uslice_to 100 (unicode_of Demo.long_text) ++ unicode_of "...")%list)
  /\ (exists summary,
        demo_check_space "spaces/K" "Zoe" "DIRECT_MESSAGE" Demo.accent_store
        = (Ok (Some summary), Demo.accent_store)
        /\ ulen Demo.accents = 60
        /\ Summary.preview summary = Some Demo.accents)
  /\ (exists summary,
        demo_check_space "spaces/L" "Shanghai" "SPACE" Demo.accent_store
        = (Ok (Some summary), Demo.accent_store)
        /\ ulen Demo.ideograms = 101
        /\ Summary.preview summary
           = Some (repeat 20013%N 100 ++ unicode_of "...")%list).
Proof.
  split; [|split].
  - destruct (preview_of_first_unread_message DateTime.isoparse Demo.world
                Demo.get_credentials unit Demo.build Demo.getSpaceReadState
                Demo.list_space_messages "spaces/E" "Ops" "SPACE"
                Demo.w0 Demo.w0 Demo.w0 _ _ [] (skipn 1 Demo.ops_messages)
                (Demo.msg "spaces/E/messages/2" Demo.long_text
                   "2024-01-03T12:00:00.123456Z")
                eq_refl eq_refl eq_refl)
      as (summary & E & T & P).
    + constructor.
    + reflexivity.
    + repeat constructor. now exists true.
    + exists summary. split; [exact E|]. split; [exact T|].
      split; [exact P|reflexivity].
  - destruct (preview_of_first_unread_message DateTime.isoparse Demo.world
                Demo.get_credentials unit Demo.build Demo.getSpaceReadState
                Demo.list_space_messages "spaces/K" "Zoe" "DIRECT_MESSAGE"
                Demo.accent_store Demo.accent_store Demo.accent_store _ _ [] []
                (Message.make (Some "spaces/K/messages/1") (Some Demo.accents)
                   (Some "2024-01-06T10:00:00Z") None)
                eq_refl eq_refl eq_refl)
      as (summary & E & _ & P).
    + constructor.
    + reflexivity.
    + constructor.
    + exists summary. split; [exact E|]. split; [reflexivity|exact P].
  - destruct (preview_of_first_unread_message DateTime.isoparse Demo.world
                Demo.get_credentials unit Demo.build Demo.getSpaceReadState
                Demo.list_space_messages "spaces/L" "Shanghai" "SPACE"
                Demo.accent_store Demo.accent_store Demo.accent_store _ _ [] []
                (Message.make (Some "spaces/L/messages/1") (Some Demo.ideograms)
                   (Some "2024-01-06T11:00:00Z") None)
                eq_refl eq_refl eq_refl)
      as (summary & E & _ & P).
    + constructor.
    + reflexivity.
    + constructor.
    + exists summary. split; [exact E|]. split; [reflexivity|exact P].
Defined.

(** C9 does not hold for every space with unread messages: when the first
    unread message has an empty text the summary has no preview, not the
    empty text, although a later unread message has a text. *)
Lemma preview_is_missing_for_empty_text :
  exists summary m,
    demo_check_space "spaces/I" "Cards" "DIRECT_MESSAGE" Demo.w0
    = (Ok (Some summary), Demo.w0)
    /\ hd_error Demo.cards_messages = Some m
    /\ is_unread DateTime.isoparse
         (_parse_timestamp DateTime.isoparse "2024-01-05T08:00:00Z") m = Ok true
    /\ Message.text m = Some (unicode_of "")
    /\ Summary.unread_count summary = 2
    /\ Summary.preview summary = None
    /\ Summary.preview summary
       <> Some (preview_text (default (unicode_of "") (Message.text m))).
Proof.
  eexists. eexists. split; [vm_compute; reflexivity|].
  split; [reflexivity|]. split; [reflexivity|]. split; [reflexivity|].
  split; [reflexivity|]. split; [reflexivity|discriminate].
Qed.

(** Nine spaces pass the filter; the read state of [spaces/C] and the
    messages of [spaces/D] cannot be fetched, [spaces/G] raises
    [TypeError]: all nine are counted. *)
Lemma total_spaces_scanned_counts_included_witness :
  Demo.list_chat_spaces Demo.w0 = (Ok (Demo.spaces Demo.w0), Demo.w0)
  /\ len (filter (included true true) (Demo.spaces Demo.w0)) = 9
  /\ len (filter with_unread (fst (demo_outcomes true true (Demo.spaces Demo.w0) Demo.w0)))
     = 5
  /\ exists r w1,
      demo_conversations true true 20 Demo.w0 = (Ok r, w1)
      /\ UnreadConversations.total_spaces_scanned r
         = len (filter (included true true) (Demo.spaces Demo.w0)).
Proof.
  split; [reflexivity|]. split; [reflexivity|]. split; [vm_compute; reflexivity|].
  exact (proj1 (total_spaces_scanned_counts_included DateTime.isoparse Demo.world
                  Demo.get_credentials unit Demo.build Demo.getSpaceReadState
                  Demo.list_chat_spaces Demo.list_space_messages true true 20
                  Demo.w0 Demo.w0 (Demo.spaces Demo.w0) eq_refl)).
Defined.

(** The read state of [spaces/C] cannot be fetched and the messages of
    [spaces/D] cannot be listed: the scan goes on after each of them. *)
Lemma per_space_failure_is_skipped_witness :
  demo_read_state "spaces/C" Demo.w0
  = (Raise (Exception "Failed to get space read state: HttpError 404"), Demo.w0)
  /\ (forall st,
        for_eachM (demo_scan_body true true) (skipn 2 (Demo.spaces Demo.w0)) st Demo.w0
        = for_eachM (demo_scan_body true true) (skipn 3 (Demo.spaces Demo.w0))
            (Scan.make (Scan.conversations_with_unread st) (Scan.total_scanned st + 1))
            Demo.w0)
  /\ Demo.list_space_messages "spaces/D" false 20 "createTime desc" Demo.w0
     = (Raise (Exception "Failed to list messages: HttpError 403"), Demo.w0)
  /\ (forall st,
        for_eachM (demo_scan_body true true) (skipn 3 (Demo.spaces Demo.w0)) st Demo.w0
        = for_eachM (demo_scan_body true true) (skipn 4 (Demo.spaces Demo.w0))
            (Scan.make (Scan.conversations_with_unread st) (Scan.total_scanned st + 1))
            Demo.w0).
Proof.
  split; [reflexivity|]. split; [|split; [reflexivity|]]; intros st.
  - exact (proj1 (proj2
             (per_space_failure_is_skipped DateTime.isoparse Demo.world
                Demo.get_credentials unit Demo.build Demo.getSpaceReadState
                Demo.list_chat_spaces Demo.list_space_messages true true st
                (Space.make (Some "spaces/C") (Some "SPACE") (Some "Broken"))
                (skipn 3 (Demo.spaces Demo.w0)) Demo.w0 Demo.w0
                (Exception "Failed to get space read state: HttpError 404")
                eq_refl (or_introl eq_refl)))).
  - exact (proj1 (proj2
             (per_space_failure_is_skipped DateTime.isoparse Demo.world
                Demo.get_credentials unit Demo.build Demo.getSpaceReadState
                Demo.list_chat_spaces Demo.list_space_messages true true st
                (Space.make (Some "spaces/D") (Some "GROUP_CHAT") (Some "Lunch"))
                (skipn 4 (Demo.spaces Demo.w0)) Demo.w0 Demo.w0
                (Exception "Failed to list messages: HttpError 403")
                eq_refl
                (or_intror
                   (ex_intro _ _ (ex_intro _ Demo.w0 (conj eq_refl eq_refl))))))).
Defined.

(** Five spaces have unread messages; a cap of 2 returns two of them. *)
Lemma conversations_length_is_capped_witness :
  Demo.list_chat_spaces Demo.w0 = (Ok (Demo.spaces Demo.w0), Demo.w0)
  /\ 0 <= 2
  /\ len (filter with_unread (fst (demo_outcomes true true (Demo.spaces Demo.w0) Demo.w0)))
     = 5
  /\ exists r w1,
      demo_conversations true true 2 Demo.w0 = (Ok r, w1)
      /\ len (UnreadConversations.conversations r)
         = Z.min
             (len (filter with_unread
                     (fst (demo_outcomes true true (Demo.spaces Demo.w0) Demo.w0))))
             2.
Proof.
  split; [reflexivity|]. split; [lia|]. split; [vm_compute; reflexivity|].
  destruct (conversations_length_is_capped DateTime.isoparse Demo.world
              Demo.get_credentials unit Demo.build Demo.getSpaceReadState
              Demo.list_chat_spaces Demo.list_space_messages true true 2
              Demo.w0 Demo.w0 (Demo.spaces Demo.w0) eq_refl ltac:(lia))
    as (r & w1 & E & L & _).
  exists r, w1. split; [exact E | exact L].
Defined.

(** C5 does not hold for every cap: with a cap of -1 the slice drops the
    last of the five conversations and four are returned, which is neither
    [min 5 (-1)] nor at most the cap. *)
Lemma negative_cap_drops_last_conversation :
  exists r,
    demo_conversations true true (-1) Demo.w0 = (Ok r, Demo.w0)
    /\ len (filter with_unread
              (fst (demo_outcomes true true (Demo.spaces Demo.w0) Demo.w0))) = 5
    /\ len (UnreadConversations.conversations r) = 4
    /\ len (UnreadConversations.conversations r) <> Z.min 5 (-1)
    /\ -1 < len (UnreadConversations.conversations r).
Proof.
  eexists. split; [vm_compute; reflexivity|].
  split; [vm_compute; reflexivity|].
  split; [reflexivity|]. split; [discriminate|reflexivity].
Qed.

(** The five conversations of the example come out with counts 3, 2, 2, 2,
    2, the four of count 2 in the order of the scan. *)
Lemma conversations_sorted_by_unread_count_witness :
  Demo.list_chat_spaces Demo.w0 = (Ok (Demo.spaces Demo.w0), Demo.w0)
  /\ exists r w1,
      demo_conversations true true 20 Demo.w0 = (Ok r, w1)
      /\ map Summary.space_name (UnreadConversations.conversations r)
         = ["spaces/B"; "spaces/A"; "spaces/E"; "spaces/H"; "spaces/I"]
      /\ map Summary.unread_count (UnreadConversations.conversations r)
         = [3; 2; 2; 2; 2]
      /\ StronglySorted
           (fun a b => Summary.unread_count b <= Summary.unread_count a)
           (UnreadConversations.conversations r).
Proof.
  split; [reflexivity|].
  destruct (conversations_sorted_by_unread_count DateTime.isoparse Demo.world
              Demo.get_credentials unit Demo.build Demo.getSpaceReadState
              Demo.list_chat_spaces Demo.list_space_messages true true 20
              Demo.w0 Demo.w0 (Demo.spaces Demo.w0) eq_refl)
    as (r & w1 & E & C & _ & _ & S & _).
  exists r, w1. split; [exact E|].
  split; [rewrite C; vm_compute; reflexivity|].
  split; [rewrite C; vm_compute; reflexivity | exact S].
Defined.

(** ** The further properties in the example world *)

Local Abbreviation demo_thread_state :=
  (get_thread_read_state Demo.get_credentials Demo.build Demo.getThreadReadState).
Local Abbreviation demo_update :=
  (update_space_read_state Demo.get_credentials Demo.build Demo.updateSpaceReadState
     Demo.clock).
Local Abbreviation demo_find_dm :=
  (find_direct_message_space Demo.get_credentials Demo.build Demo.findDirectMessage).
Local Abbreviation demo_mark_as_read :=
  (mark_space_as_read_tool Demo.get_credentials Demo.build Demo.updateSpaceReadState
     Demo.clock).
Local Abbreviation demo_read_state_tool :=
  (get_space_read_state_tool DateTime.isoparse Demo.get_credentials Demo.build
     Demo.getSpaceReadState Demo.clock).
Local Abbreviation no_credentials :=
  "No valid credentials found. Please authenticate first.".

Lemma api_errors_are_wrapped_witness :
  demo_read_state "spaces/C" Demo.w0
  = (Raise (Exception "Failed to get space read state: HttpError 404"), Demo.w0)
  /\ wrapped "Failed to get space read state: "
       (Exception "Failed to get space read state: HttpError 404").
Proof.
  split; [reflexivity|].
  exact (proj1 (api_errors_are_wrapped Demo.world Demo.get_credentials unit Demo.build
                  Demo.getSpaceReadState Demo.getThreadReadState
                  Demo.updateSpaceReadState Demo.findDirectMessage Demo.clock
                  Demo.w0 Demo.w0 _) "spaces/C" eq_refl).
Defined.

Lemma api_without_credentials_makes_no_request_witness :
  Demo.get_credentials Demo.signed_out = (Ok false, Demo.signed_out)
  /\ demo_read_state "A" Demo.signed_out
     = (Raise (Exception ("Failed to get space read state: " ++ no_credentials)),
        Demo.signed_out)
  /\ demo_find_dm "bob@example.com" Demo.signed_out
     = (Raise (Exception ("Failed to find DM space with user bob@example.com: "
                          ++ no_credentials)),
        Demo.signed_out).
Proof.
  split; [reflexivity|].
  destruct (api_without_credentials_makes_no_request Demo.world Demo.get_credentials
              unit Demo.build Demo.getSpaceReadState Demo.getThreadReadState
              Demo.updateSpaceReadState Demo.findDirectMessage Demo.clock
              Demo.signed_out Demo.signed_out eq_refl) as (A & _ & _ & D).
  split; [exact (A "A") | exact (D "bob@example.com")].
Defined.

(** A full thread name, here with another space in it, makes the request
    of the bare thread id. *)
Lemma thread_read_state_uses_last_piece_witness :
  last_piece "T1" = last_piece "spaces/ZZZ/threads/T1"
  /\ demo_thread_state "A" "T1" Demo.w0
     = demo_thread_state "A" "spaces/ZZZ/threads/T1" Demo.w0
  /\ fst (demo_thread_state "A" "T1" Demo.w0)
     = Ok (ReadState.make (Some "users/me/spaces/A/threads/T1/threadReadState")
             (Some "2024-01-01T09:00:00Z")).
Proof.
  split; [reflexivity|]. split; [|reflexivity].
  exact (thread_read_state_uses_last_piece Demo.world Demo.get_credentials unit
           Demo.build Demo.getThreadReadState "A" "T1" "spaces/ZZZ/threads/T1"
           Demo.w0 eq_refl).
Defined.

Lemma utc_timestamp_is_read_back_witness :
  DateTime.valid Demo.noon = true
  /\ utc_timestamp Demo.noon = "2024-01-05T12:34:56.789Z"
  /\ _parse_timestamp DateTime.isoparse (utc_timestamp Demo.noon)
     = Some (DateTime.make 2024 1 5 12 34 56 789000 (Some 0)).
Proof.
  split; [reflexivity|]. split; [reflexivity|].
  exact (utc_timestamp_is_read_back Demo.noon eq_refl ltac:(simpl; lia)).
Defined.

Lemma utc_timestamp_has_milliseconds_witness :
  1000 <= DateTime.year Demo.noon <= 9999
  /\ DateTime.microsecond Demo.noon = 789123
  /\ utc_timestamp Demo.noon = "2024-01-05T12:34:56.789Z"
  /\ String.length (utc_timestamp Demo.noon) = 24%nat.
Proof.
  assert (Y : 1000 <= DateTime.year Demo.noon <= 9999) by (simpl; lia).
  split; [exact Y|]. split; [reflexivity|]. split; [reflexivity|].
  exact (proj2 (utc_timestamp_has_milliseconds Demo.noon Y)).
Defined.

(** With a page of two messages, both unread, [has_more] is set. *)
Lemma has_more_iff_unread_count_is_max_witness :
  exists r,
    demo_messages "A" true 2 Demo.w0 = (Ok r, Demo.w0)
    /\ UnreadMessages.unread_count r = 2
    /\ UnreadMessages.has_more r = (UnreadMessages.unread_count r =? 2)
    /\ UnreadMessages.has_more r = true.
Proof.
  let v := eval vm_compute in (demo_messages "A" true 2 Demo.w0) in
  match v with (Ok ?r, _) => exists r end.
  assert (E : demo_messages "A" true 2 Demo.w0 = (Ok _, Demo.w0))
    by (vm_compute; reflexivity).
  split; [exact E|]. split; [reflexivity|]. split; [|reflexivity].
  exact (proj1 (has_more_iff_unread_count_is_max DateTime.isoparse Demo.world
                  Demo.get_credentials unit Demo.build Demo.getSpaceReadState
                  Demo.list_space_messages "A" true 2 Demo.w0 Demo.w0 _ E)).
Defined.

Lemma nothing_is_scanned_with_both_filters_off_witness :
  Demo.list_chat_spaces Demo.w0 = (Ok (Demo.spaces Demo.w0), Demo.w0)
  /\ demo_conversations false false 20 Demo.w0
     = (Ok (UnreadConversations.make 0 0 []), Demo.w0).
Proof.
  split; [reflexivity|].
  exact (nothing_is_scanned_with_both_filters_off DateTime.isoparse Demo.world
           Demo.get_credentials unit Demo.build Demo.getSpaceReadState
           Demo.list_chat_spaces Demo.list_space_messages 20 Demo.w0 Demo.w0
           (Demo.spaces Demo.w0) eq_refl).
Defined.

(** Without the direct messages, three conversations are left, none of
    them a direct message. *)
Lemma returned_conversations_are_well_formed_witness :
  Demo.list_chat_spaces Demo.w0 = (Ok (Demo.spaces Demo.w0), Demo.w0)
  /\ exists r w1,
      demo_conversations false true 20 Demo.w0 = (Ok r, w1)
      /\ map Summary.space_name (UnreadConversations.conversations r)
         = ["spaces/A"; "spaces/E"; "spaces/H"]
      /\ Forall (well_formed_summary false true (Demo.spaces Demo.w0))
           (UnreadConversations.conversations r).
Proof.
  split; [reflexivity|].
  destruct (returned_conversations_are_well_formed DateTime.isoparse Demo.world
              Demo.get_credentials unit Demo.build Demo.getSpaceReadState
              Demo.list_chat_spaces Demo.list_space_messages false true 20
              Demo.w0 Demo.w0 (Demo.spaces Demo.w0) eq_refl) as (r & w1 & E & F).
  exists r, w1. split; [exact E|]. split; [|exact F].
  vm_compute in E. injection E as <- _. reflexivity.
Defined.

Lemma returned_found_scanned_witness :
  Demo.list_chat_spaces Demo.w0 = (Ok (Demo.spaces Demo.w0), Demo.w0)
  /\ exists r w1,
      demo_conversations true true 2 Demo.w0 = (Ok r, w1)
      /\ UnreadConversations.conversations_with_unread r = 2
      /\ len (filter with_unread
                (fst (demo_outcomes true true (Demo.spaces Demo.w0) Demo.w0))) = 5
      /\ UnreadConversations.total_spaces_scanned r = 9
      /\ UnreadConversations.conversations_with_unread r
         = len (UnreadConversations.conversations r).
Proof.
  split; [reflexivity|].
  destruct (returned_found_scanned DateTime.isoparse Demo.world
              Demo.get_credentials unit Demo.build Demo.getSpaceReadState
              Demo.list_chat_spaces Demo.list_space_messages true true 2
              Demo.w0 Demo.w0 (Demo.spaces Demo.w0) eq_refl) as (r & w1 & E & L & _).
  exists r, w1. split; [exact E|].
  assert (E' := E). vm_compute in E'. injection E' as <- _.
  split; [reflexivity|]. split; [vm_compute; reflexivity|].
  split; [reflexivity | exact L].
Defined.

Lemma negative_cap_drops_from_the_end_witness :
  Demo.list_chat_spaces Demo.w0 = (Ok (Demo.spaces Demo.w0), Demo.w0)
  /\ -2 < 0
  /\ exists r w1,
      demo_conversations true true (-2) Demo.w0 = (Ok r, w1)
      /\ len (UnreadConversations.conversations r)
         = Z.max 0
             (len (collected (fst (demo_outcomes true true (Demo.spaces Demo.w0)
                                     Demo.w0))) + -2)
      /\ map Summary.space_name (UnreadConversations.conversations r)
         = ["spaces/B"; "spaces/A"; "spaces/E"].
Proof.
  split; [reflexivity|]. split; [lia|].
  destruct (negative_cap_drops_from_the_end DateTime.isoparse Demo.world
              Demo.get_credentials unit Demo.build Demo.getSpaceReadState
              Demo.list_chat_spaces Demo.list_space_messages true true (-2)
              Demo.w0 Demo.w0 (Demo.spaces Demo.w0) eq_refl ltac:(lia))
    as (r & w1 & E & _ & L).
  exists r, w1. split; [exact E|]. split; [exact L|].
  vm_compute in E. injection E as <- _. reflexivity.
Defined.

(** [spaces/G] holds a message without a UTC offset and an aware
    last-read time. *)
Lemma incomparable_times_raise_or_skip_witness :
  (forall st,
      demo_scan_body true true st
        (Space.make (Some "spaces/G") (Some "SPACE") (Some "Local")) Demo.w0
      = (Ok (Scan.make (Scan.conversations_with_unread st) (Scan.total_scanned st + 1)),
         Demo.w0))
  /\ demo_messages "spaces/G" true 50 Demo.w0 = (Raise naive_against_aware, Demo.w0).
Proof.
  assert (N : ~ Forall (fun m => comparable DateTime.isoparse Demo.read_0955 m = true)
                Demo.local_messages).
  { intros H. inversion H as [|? ? Hm _]. discriminate Hm. }
  pose proof
    (fun st =>
       incomparable_times_raise_or_skip DateTime.isoparse Demo.world
         Demo.get_credentials unit Demo.build Demo.getSpaceReadState
         Demo.list_space_messages
         (Space.make (Some "spaces/G") (Some "SPACE") (Some "Local"))
         true true true 50 Demo.w0 Demo.w0 Demo.w0 Demo.w0
         (snd (Demo.read_state "spaces/G" (Some "2024-01-01T09:55:00.000Z")))
         (MessagesResult.make (Some Demo.local_messages))
         (MessagesResult.make (Some Demo.local_messages))
         "2024-01-01T09:55:00.000Z" Demo.read_0955 st
         eq_refl eq_refl eq_refl eq_refl eq_refl eq_refl N eq_refl N) as P.
  split; [intros st; exact (proj1 (P st)) | exact (proj2 (P (Scan.make [] 0)))].
Defined.

(** A last-read time that cannot be parsed reads ['Never read']; one
    without a UTC offset is shown as it is. *)
Lemma formatted_last_read_without_age_witness :
  fst (demo_read_state_tool "F" Demo.w0)
  = Ok (ReadStateInfo.make (Some "users/me/spaces/F/spaceReadState") "spaces/F"
          "last tuesday" "Never read")
  /\ fst (demo_read_state_tool "N" Demo.local_store)
     = Ok (ReadStateInfo.make (Some "users/me/spaces/N/spaceReadState") "spaces/N"
             "2024-01-05T08:00:00" "2024-01-05T08:00:00").
Proof.
  split.
  - rewrite (proj1 (formatted_last_read_without_age DateTime.isoparse Demo.world
                      Demo.get_credentials unit Demo.build Demo.getSpaceReadState
                      Demo.clock "F" Demo.w0 Demo.w0 _ eq_refl)).
    + reflexivity.
    + intros t [= <-]. reflexivity.
  - rewrite (proj2 (formatted_last_read_without_age DateTime.isoparse Demo.world
                      Demo.get_credentials unit Demo.build Demo.getSpaceReadState
                      Demo.clock "N" Demo.local_store Demo.local_store _ eq_refl)
               "2024-01-05T08:00:00" (DateTime.make 2024 1 5 8 0 0 0 None)
               Demo.noon Demo.local_store eq_refl eq_refl eq_refl eq_refl).
    reflexivity.
Defined.

(** Read at 08:00 UTC and asked at 12:34:56 UTC: four hours ago. *)
Lemma formatted_last_read_is_the_age_witness :
  age_in_words
    (DateTime.wall Demo.noon - (DateTime.wall (DateTime.make 2024 1 5 8 0 0 0 (Some 0)) - 0))
  = "4 hours ago"
  /\ fst (demo_read_state_tool "I" Demo.w0)
     = Ok (ReadStateInfo.make (Some "users/me/spaces/I/spaceReadState") "spaces/I"
             "2024-01-05T08:00:00Z" "4 hours ago").
Proof.
  split; [reflexivity|].
  rewrite (formatted_last_read_is_the_age DateTime.isoparse Demo.world
             Demo.get_credentials unit Demo.build Demo.getSpaceReadState Demo.clock
             "I" Demo.w0 Demo.w0 Demo.w0 _ "2024-01-05T08:00:00Z"
             (DateTime.make 2024 1 5 8 0 0 0 (Some 0)) Demo.noon 0
             eq_refl eq_refl eq_refl eq_refl eq_refl).
  reflexivity.
Defined.

Lemma mark_space_as_read_sends_the_clock_witness :
  demo_mark_as_read "A" Demo.w0
  = (Ok (MarkedRead.make "spaces/A" (Some "2024-01-05T12:34:56.789Z") true), Demo.w0)
  /\ demo_update "A" (Some "") Demo.w0
     = (Ok (ReadState.make (Some "users/me/spaces/A/spaceReadState") (Some "")),
        Demo.w0).
Proof.
  destruct (mark_space_as_read_sends_the_clock Demo.world Demo.get_credentials unit
              Demo.build Demo.updateSpaceReadState Demo.clock "A"
              Demo.w0 Demo.w0 Demo.w0 Demo.w0 Demo.w0 tt Demo.noon
              eq_refl eq_refl eq_refl eq_refl) as [A B].
  split; [rewrite A | rewrite (B "")]; reflexivity.
Defined.
